(** * asclepius-backend: the prediction server ([src/server.js])

    A shallow embedding of the Express application of [src/server.js] and the
    properties of its two routes.

    The program is one Express application: the route [POST /predict]
    (multer's single-file upload middleware, then an async handler), the route
    [GET /test-firestore], and a final error-handling middleware.  The
    embedding follows the file top to bottom:

    - JavaScript values the program touches (errors, numbers, buffers,
      response bodies) are records and primitive floats;
    - the process state the handlers read and write (the [let model]
      variable, the two Firestore collections, the console) is the record
      [World]; calls into TensorFlow.js are also logged in it, in call order;
    - the outside world (TensorFlow.js, [uuidv4], the clock, whether Firestore
      accepts a write) is a parameter of the development;
    - handlers are written in a state-and-exception monad, [try]/[catch]
      being [try_catch].

    Every request is run to completion against the world it starts in.  The
    handlers keep no per-request state outside their local variables, and the
    only shared variable, [model], is assigned at most once by [loadModel], so
    the interleaving of concurrent requests at their [await] points is not
    modelled. *)

From Stdlib Require Import ZArith String List Lia Floats Uint63.
From stdpp Require Import base option gmap strings pretty.
Import ListNotations.

Local Open Scope string_scope.
Local Open Scope Z_scope.

(** ** JavaScript values *)

(** A completion of a JavaScript computation: a value, or a thrown error. *)
Inductive Completion (E A : Type) : Type :=
| Normal (a : A)
| Throw (e : E).
Arguments Normal {E A} a.
Arguments Throw {E A} e.

(** An [Error] object as the error middleware reads it: [err.message] and
    [err.status].  [new Error(msg)] and multer's [MulterError] carry no
    [status] property. *)
Module JsError.
Record t : Type := mk { message : string; status : option Z }.
End JsError.

Definition Error (msg : string) : JsError.t :=
  JsError.mk msg None.

(** [TypeError] raised by reading a property of [undefined]. *)
Definition TypeError (msg : string) : JsError.t :=
  JsError.mk msg None.

(** A Node.js [Buffer]: its length in bytes and its bytes by index. *)
Module Buffer.
Record t : Type := mk { length : Z; at_ : Z -> Byte.byte }.
End Buffer.

(** The file part of a multipart request, as multer's [fileFilter] and its
    memory storage see it. *)
Module File.
Record t : Type := mk { mimetype : string; buffer : Buffer.t }.
End File.

(** A request to [POST /predict]: the file sent in the form field [image],
    if the request has one.  These are the requests whose body has no other
    part: a file under another field name, a second file, other fields and
    bodies that do not parse, which multer answers with errors of its own,
    are outside this type. *)
Module Request.
Record t : Type := mk { image : option File.t }.
End Request.

(** The document written to the [predictions] collection (lines 81-86). *)
Module Prediction.
Record t : Type :=
  mk { id : string; result : string; suggestion : string; createdAt : string }.
End Prediction.

(** The document written to the [test] collection (lines 112-115). *)
Module TestDoc.
Record t : Type := mk { message : string; timestamp : string }.
End TestDoc.

(** The JSON body of every response: [{ status, message, data? }]. *)
Module Body.
Record t : Type :=
  mk { status : string; message : string; data : option Prediction.t }.
End Body.

(** [res.status(code).send(body)]. *)
Module Response.
Record t : Type := mk { code : Z; body : Body.t }.
End Response.

Definition send (code : Z) (body : Body.t) : Response.t :=
  Response.mk code body.

(** [{ status: 'fail', message }]. *)
Definition failure (message : string) : Body.t :=
  Body.mk "fail" message None.

(** ** Multer setup for file uploads (lines 19-27) *)

(** [limits: { fileSize: 1000000 }]. *)
Definition fileSize : Z := 1000000.

(** [file.mimetype.startsWith('image/')]. *)
Definition startsWith (s p : string) : bool := String.prefix p s.

(** [fileFilter(req, file, cb)]: [inl err] is [cb(err)], [inr b] is
    [cb(null, b)]. *)
Definition fileFilter (file : File.t) : JsError.t + bool :=
  if negb (startsWith (File.mimetype file) "image/")
  then inl (Error "File must be an image")
  else inr true.

(** [upload.single('image')].  Multer is a library, not part of this
    repository; what the route relies on is modelled here, for the requests
    of [Request.t].  For the file of the field, multer calls [fileFilter]
    first, when the part's headers have been read, and passes an error given
    to [cb] on to [next(err)].  A file that is accepted is read into memory;
    the parser stops a file when the bytes read reach [limits.fileSize], and
    multer then calls [next] with a [MulterError] whose message is
    ['File too large']: so it is for a file of exactly [limits.fileSize]
    bytes.  Otherwise [req.file] is set and the next handler runs; without a
    file [req.file] stays [undefined]. *)
Definition upload_single (req : Request.t) : JsError.t + option File.t :=
  match Request.image req with
  | None => inr None
  | Some file =>
      match fileFilter file with
      | inl err => inl err
      | inr false => inr None
      | inr true =>
          if fileSize <=? Buffer.length (File.buffer file)
          then inl (Error "File too large")
          else inr (Some file)
      end
  end.

(** ** Error handling middleware (lines 124-135) *)

(** [a || b] on an optional number: [undefined] and [0] are falsy. *)
Definition or_number (a : option Z) (b : Z) : Z :=
  match a with
  | Some n => if n =? 0 then b else n
  | None => b
  end.

(** [a || b] on a string: the empty string is falsy. *)
Definition or_string (a b : string) : string :=
  if String.eqb a "" then b else a.

Definition error_middleware (err : JsError.t) : Response.t :=
  if String.eqb (JsError.message err) "File too large"
  then send 413 (failure "Payload content length greater than maximum allowed: 1MB")
  else send (or_number (JsError.status err) 500)
            (failure (or_string (JsError.message err) "Internal Server Error")).

(** ** The Result Interpreter (lines 73-76) *)

(** [x > 0.5] where [x] may be [undefined]: [undefined] converts to [NaN],
    and every comparison with [NaN] is false. *)
Definition gt_half (x : option float) : bool :=
  match x with
  | Some s => PrimFloat.ltb 0.5%float s
  | None => false
  end.

(** [predictionArray[0][0] > 0.5 ? 'Cancer' : 'Non-cancer']. *)
Definition result_of (x : option float) : string :=
  if gt_half x then "Cancer" else "Non-cancer".

(** [result === 'Cancer' ? 'Segera periksa ke dokter!'
                        : 'Penyakit kanker tidak terdeteksi.']. *)
Definition suggestion_of (result : string) : string :=
  if String.eqb result "Cancer"
  then "Segera periksa ke dokter!"
  else "Penyakit kanker tidak terdeteksi.".

(** ** TensorFlow.js *)

(** Tensors and the loaded model are opaque handles of the library.  A
    runtime says what each library call used by the program answers: a value,
    or a thrown error.  [array] is [await tensor.array()] on the rank-2 output
    of the classifier, a nested array of numbers. *)
Module Tf.
Record Runtime (Tensor LayersModel : Type) : Type := mk {
  loadLayersModel : string -> Completion JsError.t LayersModel;
  decodeImage : Buffer.t -> Z -> Completion JsError.t Tensor;
  resizeBilinear : Tensor -> Z * Z -> Completion JsError.t Tensor;
  expandDims : Tensor -> Z -> Completion JsError.t Tensor;
  scalar : Z -> Tensor;
  div : Tensor -> Tensor -> Completion JsError.t Tensor;
  predict : LayersModel -> Tensor -> Completion JsError.t Tensor;
  array : Tensor -> Completion JsError.t (list (list float))
}.
Arguments loadLayersModel {Tensor LayersModel} _ _.
Arguments decodeImage {Tensor LayersModel} _ _ _.
Arguments resizeBilinear {Tensor LayersModel} _ _ _.
Arguments expandDims {Tensor LayersModel} _ _ _.
Arguments scalar {Tensor LayersModel} _ _.
Arguments div {Tensor LayersModel} _ _ _.
Arguments predict {Tensor LayersModel} _ _ _.
Arguments array {Tensor LayersModel} _ _.

(** One call into the library, with its arguments. *)
Inductive Call (Tensor LayersModel : Type) : Type :=
| LoadLayersModel (url : string)
| DecodeImage (buffer : Buffer.t) (channels : Z)
| ResizeBilinear (x : Tensor) (size : Z * Z)
| ExpandDims (x : Tensor) (axis : Z)
| Scalar (value : Z)
| Div (a b : Tensor)
| Predict (model : LayersModel) (input : Tensor)
| Array (x : Tensor).
Arguments LoadLayersModel {Tensor LayersModel} url.
Arguments DecodeImage {Tensor LayersModel} buffer channels.
Arguments ResizeBilinear {Tensor LayersModel} x size.
Arguments ExpandDims {Tensor LayersModel} x axis.
Arguments Scalar {Tensor LayersModel} value.
Arguments Div {Tensor LayersModel} a b.
Arguments Predict {Tensor LayersModel} model input.
Arguments Array {Tensor LayersModel} x.
End Tf.

(** ** The rest of the outside world *)

(** [uuidv4 n] is the identifier the [n]-th call of [uuidv4()] of the process
    returns; [toISOString] is [new Date().toISOString()] during the request;
    [firestore_fault] is the error with which Firestore rejects a write made
    during the request, if it does. *)
Module Env.
Record t : Type := mk {
  uuidv4 : nat -> string;
  toISOString : string;
  firestore_fault : option JsError.t
}.
End Env.

(** ** A runtime that tracks shapes

    An instance of the interface, used to run the server on concrete
    requests.  A tensor is its shape and the value its elements share; the
    model is a classifier that expects one 224x224 image of 3 channels and
    answers its own constant score. *)
Module Shapes.
Definition Tensor : Type := list Z * float.
Definition LayersModel : Type := float.

Definition loadLayersModel (url : string) : Completion JsError.t LayersModel :=
  if String.eqb url "" then Throw (Error "Request to the model URL failed")
  else Normal 0.75%float.

Definition decodeImage (buffer : Buffer.t) (channels : Z)
    : Completion JsError.t Tensor :=
  if Buffer.length buffer =? 0
  then Throw (Error "Expected image (BMP, JPEG, PNG, or GIF), but got unsupported image type")
  else Normal ([480; 640; channels], 63.75%float).

Definition resizeBilinear (x : Tensor) (size : Z * Z)
    : Completion JsError.t Tensor :=
  match fst x with
  | [_; _; c] => Normal ([fst size; snd size; c], snd x)
  | _ => Throw (Error "Error in resizeBilinear: x must be rank 3 or 4")
  end.

Definition expandDims (x : Tensor) (axis : Z) : Completion JsError.t Tensor :=
  if axis =? 0 then Normal (1 :: fst x, snd x)
  else Throw (Error "Axis must be 0 in this runtime").

Definition scalar (value : Z) : Tensor :=
  ([], PrimFloat.of_uint63 (Uint63.of_Z value)).

Definition div (a b : Tensor) : Completion JsError.t Tensor :=
  Normal (fst a, PrimFloat.div (snd a) (snd b)).

Definition predict (model : LayersModel) (input : Tensor)
    : Completion JsError.t Tensor :=
  if decide (fst input = [1; 224; 224; 3]) then Normal ([1; 1], model)
  else Throw (Error "Error when checking : expected input to have shape [null,224,224,3]").

Definition array (x : Tensor) : Completion JsError.t (list (list float)) :=
  Normal [[snd x]].

Definition runtime : Tf.Runtime Tensor LayersModel :=
  Tf.mk Tensor LayersModel
        loadLayersModel decodeImage resizeBilinear expandDims scalar div predict array.

(** An outside world in which Firestore accepts writes, and one in which it
    rejects them. *)
Definition uuid_of (n : nat) : string :=
  "00000000-0000-4000-8000-" ++ pretty (N.of_nat n).

Definition env : Env.t :=
  Env.mk uuid_of "2024-12-01T00:00:00.000Z" None.

Definition env_down : Env.t :=
  Env.mk uuid_of "2024-12-01T00:00:00.000Z" (Some (Error "7 PERMISSION_DENIED")).

(** Buffers of [n] zero bytes, and four uploads. *)
Definition zeros (n : Z) : Buffer.t :=
  Buffer.mk n (fun _ => Byte.x00).

Definition photo : File.t := File.mk "image/png" (zeros 20000).
Definition large_photo : File.t := File.mk "image/jpeg" (zeros 1000001).
Definition text_file : File.t := File.mk "text/plain" (zeros 12).
Definition large_text_file : File.t := File.mk "text/plain" (zeros 1000001).
End Shapes.

(** ** Runtimes that answer oddly

    The runtime that tracks shapes, with one answer changed: the model cannot
    be fetched; the output of the model has no row; its first row is empty. *)
Module Odd.
Definition no_model : Tf.Runtime Shapes.Tensor Shapes.LayersModel :=
  Tf.mk Shapes.Tensor Shapes.LayersModel
        (fun _ => Throw (Error "Request to the model URL failed"))
        Shapes.decodeImage Shapes.resizeBilinear Shapes.expandDims Shapes.scalar
        Shapes.div Shapes.predict Shapes.array.

Definition empty_output : Tf.Runtime Shapes.Tensor Shapes.LayersModel :=
  Tf.mk Shapes.Tensor Shapes.LayersModel
        Shapes.loadLayersModel
        Shapes.decodeImage Shapes.resizeBilinear Shapes.expandDims Shapes.scalar
        Shapes.div Shapes.predict (fun _ => Normal []).

Definition empty_row : Tf.Runtime Shapes.Tensor Shapes.LayersModel :=
  Tf.mk Shapes.Tensor Shapes.LayersModel
        Shapes.loadLayersModel
        Shapes.decodeImage Shapes.resizeBilinear Shapes.expandDims Shapes.scalar
        Shapes.div Shapes.predict (fun _ => Normal [[]]).
End Odd.

(** ** The life of the process

    What happens in the process, one thing after the other: the call of
    [loadModel()] made when the server starts (line 43) completes, or a
    request to one of the two routes is served. *)
Inductive Event : Type :=
| LoadModel
| PostPredict (req : Request.t)
| GetTestFirestore.

(** The response sent by an async handler: none when its promise is
    rejected. *)
Definition sent (c : Completion JsError.t Response.t) : option Response.t :=
  match c with
  | Normal r => Some r
  | Throw _ => None
  end.

(** The records reported to clients: the data payloads of the responses. *)
Definition reported (responses : list (option Response.t)) : list Prediction.t :=
  omap (fun response => r ← response; Body.data (Response.body r)) responses.

(** Events one after the other, each met by [step] in the world the previous
    one left; the results, in order, and the last world. *)
Fixpoint run_with {Ev W R : Type} (step : Ev -> W -> R * W)
    (events : list Ev) (w : W) : list R * W :=
  match events with
  | [] => ([], w)
  | ev :: events' =>
      let (r, w') := step ev w in
      let (rs, w'') := run_with step events' w' in
      (r :: rs, w'')
  end.

(** [const BUCKET_URL] (line 30). *)
Definition BUCKET_URL : string :=
  "https://storage.googleapis.com/bucket-applied/submissions-model/model.json".

Section Server.

Context {Tensor LayersModel : Type}.
Variable tf : Tf.Runtime Tensor LayersModel.
Variable env : Env.t.

(** ** The state of the process and of its collaborators *)

(** [model] is the variable declared by [let model] (line 31), [None] while
    it is [undefined]; [predictions] and [test] are the two Firestore
    collections, by document id; [tf_calls] is the log of the calls made into
    TensorFlow.js, oldest first; [uuids_drawn] counts the calls of
    [uuidv4()]; [console] is what was printed, with the error printed
    after the text, if any. *)
Record World : Type := mkWorld {
  model : option LayersModel;
  predictions : gmap string Prediction.t;
  test : gmap string TestDoc.t;
  tf_calls : list (Tf.Call Tensor LayersModel);
  uuids_drawn : nat;
  console : list (string * option JsError.t)
}.

(** The world when a process starts against an empty store: [model] is
    [undefined], nothing has been called, and the two collections, which
    live in Firestore and outlive the process, hold nothing yet. *)
Definition initial_world : World :=
  mkWorld None ∅ ∅ [] 0%nat [].

(** ** Computations: state and exceptions *)

Definition M (A : Type) : Type := World -> Completion JsError.t A * World.

#[local] Instance M_ret : MRet M :=
  fun A a w => (Normal a, w).

#[local] Instance M_bind : MBind M :=
  fun A B k m w =>
    match m w with
    | (Normal a, w') => k a w'
    | (Throw e, w') => (Throw e, w')
    end.

(** [try { body } catch (error) { handler }]: what [body] did to the world
    before it threw stays done. *)
Definition try_catch {A : Type} (body : M A) (handler : JsError.t -> M A) : M A :=
  fun w =>
    match body w with
    | (Normal a, w') => (Normal a, w')
    | (Throw e, w') => handler e w'
    end.

(** The changes a step makes to the world. *)
Definition logged (c : Tf.Call Tensor LayersModel) (w : World) : World :=
  mkWorld (model w) (predictions w) (test w) (tf_calls w ++ [c])
          (uuids_drawn w) (console w).

Definition with_model (m : LayersModel) (w : World) : World :=
  mkWorld (Some m) (predictions w) (test w) (tf_calls w)
          (uuids_drawn w) (console w).

Definition printed (text : string) (error : option JsError.t) (w : World) : World :=
  mkWorld (model w) (predictions w) (test w) (tf_calls w)
          (uuids_drawn w) (console w ++ [(text, error)]).

Definition drawn (w : World) : World :=
  mkWorld (model w) (predictions w) (test w) (tf_calls w)
          (S (uuids_drawn w)) (console w).

Definition with_prediction (id : string) (doc : Prediction.t) (w : World) : World :=
  mkWorld (model w) (<[id := doc]> (predictions w)) (test w) (tf_calls w)
          (uuids_drawn w) (console w).

Definition with_test (id : string) (doc : TestDoc.t) (w : World) : World :=
  mkWorld (model w) (predictions w) (<[id := doc]> (test w)) (tf_calls w)
          (uuids_drawn w) (console w).

(** A call into TensorFlow.js: logged, then answered by the runtime. *)
Definition tf_call {A : Type} (c : Tf.Call Tensor LayersModel)
    (answer : Completion JsError.t A) : M A :=
  fun w => (answer, logged c w).

Definition read_model : M (option LayersModel) :=
  fun w => (Normal (model w), w).

Definition assign_model (m : LayersModel) : M unit :=
  fun w => (Normal tt, with_model m w).

(** [console.log(text)] and [console.error(text, error)]. *)
Definition console_print (text : string) (error : option JsError.t) : M unit :=
  fun w => (Normal tt, printed text error w).

(** [uuidv4()]. *)
Definition uuidv4 : M string :=
  fun w => (Normal (Env.uuidv4 env (uuids_drawn w)), drawn w).

(** [new Date().toISOString()]. *)
Definition now_toISOString : M string :=
  fun w => (Normal (Env.toISOString env), w).

(** [await db.collection('predictions').doc(id).set(doc)]: the document is
    stored under [id], replacing what was there, unless Firestore rejects the
    write, which then changes nothing. *)
Definition predictions_doc_set (id : string) (doc : Prediction.t) : M unit :=
  fun w =>
    match Env.firestore_fault env with
    | Some e => (Throw e, w)
    | None => (Normal tt, with_prediction id doc w)
    end.

(** [await db.collection('test').doc(id).set(doc)]. *)
Definition test_doc_set (id : string) (doc : TestDoc.t) : M unit :=
  fun w =>
    match Env.firestore_fault env with
    | Some e => (Throw e, w)
    | None => (Normal tt, with_test id doc w)
    end.

(** [predictionArray[0][0]]: reading index [0] of [undefined] throws a
    [TypeError]; a missing element of the row is [undefined]. *)
Definition index_0_0 (predictionArray : list (list float)) : M (option float) :=
  match predictionArray with
  | [] => fun w => (Throw (TypeError "Cannot read properties of undefined (reading '0')"), w)
  | row :: _ => mret (head row)
  end.

(** ** Model setup (lines 33-40) *)

Definition loadModel : M unit :=
  try_catch
    (m ← tf_call (Tf.LoadLayersModel BUCKET_URL) (Tf.loadLayersModel tf BUCKET_URL);
     _ ← assign_model m;
     console_print "Model loaded successfully!" None)
    (fun error => console_print "Error loading model:" (Some error)).

(** ** API endpoint (lines 46-106) *)

(** The async handler of [POST /predict]; [req_file] is [req.file]. *)
Definition predict_handler (req_file : option File.t) : M Response.t :=
  try_catch
    (model ← read_model;
     match model with
     | None =>
         mret (send 500 (failure "Model is not loaded yet. Please try again later."))
     | Some model =>
         match req_file with
         | None => mret (send 400 (failure "File not uploaded"))
         | Some file =>
             let buffer := File.buffer file in
             decoded ← tf_call (Tf.DecodeImage buffer 3) (Tf.decodeImage tf buffer 3);
             resized ← tf_call (Tf.ResizeBilinear decoded (224, 224))
                               (Tf.resizeBilinear tf decoded (224, 224));
             expanded ← tf_call (Tf.ExpandDims resized 0) (Tf.expandDims tf resized 0);
             divisor ← tf_call (Tf.Scalar 255) (Normal (Tf.scalar tf 255));
             imageTensor ← tf_call (Tf.Div expanded divisor) (Tf.div tf expanded divisor);
             prediction ← tf_call (Tf.Predict model imageTensor)
                                  (Tf.predict tf model imageTensor);
             predictionArray ← tf_call (Tf.Array prediction) (Tf.array tf prediction);
             score ← index_0_0 predictionArray;
             let result := result_of score in
             let suggestion := suggestion_of result in
             id ← uuidv4;
             createdAt ← now_toISOString;
             _ ← predictions_doc_set id (Prediction.mk id result suggestion createdAt);
             mret (send 200 (Body.mk "success" "Prediction successful"
                               (Some (Prediction.mk id result suggestion createdAt))))
         end
     end)
    (fun error =>
       _ ← console_print "Error during prediction:" (Some error);
       mret (send 500 (failure "An error occurred during prediction"))).

(** The route [POST /predict]: [upload.single('image')], then the handler;
    an error passed to [next] by the upload middleware skips the handler and
    is answered by the error handling middleware. *)
Definition post_predict (req : Request.t) : M Response.t :=
  match upload_single req with
  | inl err => mret (error_middleware err)
  | inr req_file => predict_handler req_file
  end.

(** ** Firestore test endpoint (lines 109-121) *)

Definition get_test_firestore : M Response.t :=
  try_catch
    (timestamp ← now_toISOString;
     _ ← test_doc_set "testDoc" (TestDoc.mk "Hello, Firestore!" timestamp);
     mret (send 200 (Body.mk "success" "Firestore connected!" None)))
    (fun error =>
       _ ← console_print "Error testing Firestore:" (Some error);
       mret (send 500 (failure (JsError.message error)))).

(** ** The inference on a request

    The score of the inference on a request, when the inference completes:
    the upload passes the upload middleware with a file, the model is loaded,
    every step of the preparation of the image and the prediction answers,
    and the output has a first row.  The score is the element at [0][0] of
    the output, [None] when the row is empty ([undefined]). *)
Definition inference_score (req : Request.t) (w : World) : option (option float) :=
  match upload_single req, model w with
  | inr (Some file), Some m =>
      match Tf.decodeImage tf (File.buffer file) 3 with
      | Normal decoded =>
      match Tf.resizeBilinear tf decoded (224, 224) with
      | Normal resized =>
      match Tf.expandDims tf resized 0 with
      | Normal expanded =>
      match Tf.div tf expanded (Tf.scalar tf 255) with
      | Normal imageTensor =>
      match Tf.predict tf m imageTensor with
      | Normal prediction =>
      match Tf.array tf prediction with
      | Normal (row :: _) => Some (head row)
      | _ => None
      end
      | _ => None
      end
      | _ => None
      end
      | _ => None
      end
      | _ => None
      end
      | _ => None
      end
  | _, _ => None
  end.

(** The error the [try] block of the handler throws on an accepted upload
    with the model loaded, if it throws: the error of the first call into
    TensorFlow.js that throws, or the [TypeError] of reading [0][0] in an
    output without rows, or the error with which Firestore rejects the
    write. *)
Definition thrown_error (file : File.t) (m : LayersModel) : option JsError.t :=
  match Tf.decodeImage tf (File.buffer file) 3 with
  | Throw error => Some error
  | Normal decoded =>
  match Tf.resizeBilinear tf decoded (224, 224) with
  | Throw error => Some error
  | Normal resized =>
  match Tf.expandDims tf resized 0 with
  | Throw error => Some error
  | Normal expanded =>
  match Tf.div tf expanded (Tf.scalar tf 255) with
  | Throw error => Some error
  | Normal imageTensor =>
  match Tf.predict tf m imageTensor with
  | Throw error => Some error
  | Normal prediction =>
  match Tf.array tf prediction with
  | Throw error => Some error
  | Normal [] =>
      Some (TypeError "Cannot read properties of undefined (reading '0')")
  | Normal (_ :: _) => Env.firestore_fault env
  end
  end
  end
  end
  end
  end.

(** The record the handler builds for a score in a world: the identifier is
    the next one [uuidv4()] returns. *)
Definition record_for (score : option float) (w : World) : Prediction.t :=
  Prediction.mk (Env.uuidv4 env (uuids_drawn w))
                (result_of score)
                (suggestion_of (result_of score))
                (Env.toISOString env).

(** Every stored prediction is stored under an identifier [uuidv4()] has
    returned. *)
Definition stored_under_drawn_ids (w : World) : Prop :=
  forall id : string,
    is_Some (predictions w !! id) ->
    exists n : nat, (n < uuids_drawn w)%nat /\ id = Env.uuidv4 env n.

(** ** One event

    What an event does to the world, and the response that is sent, if one
    is. *)
Definition serve_one (ev : Event) (w : World) : option Response.t * World :=
  match ev with
  | LoadModel => (None, snd (loadModel w))
  | PostPredict req => (sent (fst (post_predict req w)), snd (post_predict req w))
  | GetTestFirestore =>
      (sent (fst (get_test_firestore w)), snd (get_test_firestore w))
  end.

(** ** Properties *)

(** Running a handler: the monad and the steps are unfolded, the changes to
    the world are kept as they are. *)
Ltac run :=
  unfold post_predict, predict_handler, get_test_firestore, loadModel,
    try_catch, mbind, M_bind, mret, M_ret, read_model, assign_model, tf_call,
    console_print, uuidv4, now_toISOString, predictions_doc_set, test_doc_set,
    index_0_0;
  cbv beta iota.

(** Case analysis on the next answer of the outside world. *)
Ltac next_answer :=
  match goal with
  | |- context [match ?x with Normal _ => _ | Throw _ => _ end] =>
      destruct x eqn:?
  | |- context [match Env.firestore_fault env with Some _ => _ | None => _ end] =>
      destruct (Env.firestore_fault env) eqn:?
  | |- context [match ?x with [] => _ | _ :: _ => _ end] =>
      destruct x eqn:?
  end;
  unfold mret, M_ret; cbv beta iota.

Lemma upload_single_no_file :
  upload_single (Request.mk None) = inr None.
Proof. reflexivity. Qed.

Lemma upload_single_rejects_mime (file : File.t) :
  startsWith (File.mimetype file) "image/" = false ->
  upload_single (Request.mk (Some file)) = inl (Error "File must be an image").
Proof.
  intros Hmime. unfold upload_single, fileFilter. cbn. now rewrite Hmime.
Qed.

Lemma upload_single_rejects_size (file : File.t) :
  startsWith (File.mimetype file) "image/" = true ->
  fileSize < Buffer.length (File.buffer file) ->
  upload_single (Request.mk (Some file)) = inl (Error "File too large").
Proof.
  intros Hmime Hsize. unfold upload_single, fileFilter. cbn. rewrite Hmime. cbn.
  destruct (Z.leb_spec fileSize (Buffer.length (File.buffer file))); [reflexivity | lia].
Qed.

(** What the upload middleware passes on is an error with one of two
    messages, or the request's file, or no file. *)
Lemma upload_single_cases (req : Request.t) :
  upload_single req = inl (Error "File must be an image") \/
  upload_single req = inl (Error "File too large") \/
  upload_single req = inr (Request.image req).
Proof.
  unfold upload_single, fileFilter. destruct (Request.image req) as [file|]; [|auto].
  destruct (startsWith (File.mimetype file) "image/"); cbn; [|auto].
  destruct (fileSize <=? Buffer.length (File.buffer file)); auto.
Qed.

(** The uploads the upload middleware lets through: no file, and an image of
    fewer than 1,000,000 bytes. *)
Lemma upload_single_lets_through (req : Request.t) :
  (Request.image req = None -> upload_single req = inr None) /\
  (forall file,
     Request.image req = Some file ->
     startsWith (File.mimetype file) "image/" = true ->
     Buffer.length (File.buffer file) < 1000000 ->
     upload_single req = inr (Some file)).
Proof.
  unfold upload_single, fileFilter. split.
  - now intros ->.
  - intros file -> Hmime Hsize. rewrite Hmime. cbn.
    destruct (Z.leb_spec fileSize (Buffer.length (File.buffer file))) as [Hle|Hlt];
      [unfold fileSize in Hle; lia | reflexivity].
Qed.

(** The handler leaves everything alone while the model is not loaded. *)
Lemma predict_handler_model_unset (req_file : option File.t) (w : World) :
  model w = None ->
  predict_handler req_file w =
    (Normal (send 500 (failure "Model is not loaded yet. Please try again later.")), w).
Proof.
  intros Hmodel. run. now rewrite Hmodel.
Qed.

(** The handler always answers, with a response: its [catch] block catches
    whatever the [try] block throws. *)
Lemma predict_handler_answers (req_file : option File.t) (w : World) :
  exists r, fst (predict_handler req_file w) = Normal r.
Proof.
  run. destruct (model w); [|eauto]. destruct req_file; [|eauto].
  repeat next_answer; eauto.
Qed.

(** [loadModel] assigns [model] when the model is fetched, and leaves it as it
    was when fetching fails. *)
Lemma loadModel_success (m : LayersModel) (w : World) :
  Tf.loadLayersModel tf BUCKET_URL = Normal m ->
  model (snd (loadModel w)) = Some m.
Proof. intros Hload. run. now rewrite Hload. Qed.

Lemma loadModel_failure (e : JsError.t) (w : World) :
  Tf.loadLayersModel tf BUCKET_URL = Throw e ->
  model (snd (loadModel w)) = model w.
Proof. intros Hload. run. now rewrite Hload. Qed.

(** C3.  Uploading a file whose MIME type does not start with [image/] to
    [POST /predict] always yields HTTP 500 with the body
    [{status: 'fail', message: 'File must be an image'}]: whatever the size
    of the file and whether or not the model is loaded.  Nothing else
    happens on that request. *)
Theorem non_image_upload_answer (file : File.t) (w : World) :
  startsWith (File.mimetype file) "image/" = false ->
  post_predict (Request.mk (Some file)) w =
    (Normal (send 500 (failure "File must be an image")), w).
Proof.
  intros Hmime. unfold post_predict.
  now rewrite (upload_single_rejects_mime file Hmime).
Qed.

(** C4, amended.  The error with which the upload handler rejects a MIME
    type is not explicitly mapped in the error middleware: its message is not
    the one the middleware tests for.  It falls through to the generic branch
    of the middleware, [res.status(err.status || 500)] with
    [message: err.message || 'Internal Server Error'], which answers HTTP 500
    with the error's own message, "File must be an image". *)
Theorem mime_rejection_keeps_its_message (file : File.t) :
  startsWith (File.mimetype file) "image/" = false ->
  exists err,
    fileFilter file = inl err /\
    JsError.message err = "File must be an image" /\
    String.eqb (JsError.message err) "File too large" = false /\
    error_middleware err =
      send (or_number (JsError.status err) 500)
           (failure (or_string (JsError.message err) "Internal Server Error")) /\
    error_middleware err = send 500 (failure (JsError.message err)) /\
    forall w, post_predict (Request.mk (Some file)) w = (Normal (error_middleware err), w).
Proof.
  intros Hmime. exists (Error "File must be an image").
  repeat split.
  - unfold fileFilter. now rewrite Hmime.
  - intros w. unfold post_predict.
    now rewrite (upload_single_rejects_mime file Hmime).
Qed.

(** C5, amended.  Uploading a file whose MIME type starts with [image/] and
    that is larger than 1,000,000 bytes to [POST /predict] yields HTTP 413
    with status "fail" and the message
    "Payload content length greater than maximum allowed: 1MB". *)
Theorem large_image_upload_answer (file : File.t) (w : World) :
  startsWith (File.mimetype file) "image/" = true ->
  1000000 < Buffer.length (File.buffer file) ->
  post_predict (Request.mk (Some file)) w =
    (Normal (send 413 (failure "Payload content length greater than maximum allowed: 1MB")), w).
Proof.
  intros Hmime Hsize. unfold post_predict.
  now rewrite (upload_single_rejects_size file Hmime Hsize).
Qed.

(** C6, amended.  Every call to [POST /predict] made while the shared model
    reference is unset and that the upload middleware lets through returns
    HTTP 500 with status "fail" and the message
    "Model is not loaded yet. Please try again later.".  Among the requests
    of [Request.t], the middleware lets through the request without a file
    and the request whose file is an image of fewer than 1,000,000 bytes.  On
    every call made while the reference is unset, let through or not, no
    inference is attempted: no call into TensorFlow.js is made and the world
    is left as it was. *)
Theorem model_unset_answer (req : Request.t) (w : World) :
  model w = None ->
  (forall req_file, upload_single req = inr req_file ->
     fst (post_predict req w) =
       Normal (send 500 (failure "Model is not loaded yet. Please try again later."))) /\
  (Request.image req = None ->
     fst (post_predict req w) =
       Normal (send 500 (failure "Model is not loaded yet. Please try again later."))) /\
  (forall file,
     Request.image req = Some file ->
     startsWith (File.mimetype file) "image/" = true ->
     Buffer.length (File.buffer file) < 1000000 ->
     fst (post_predict req w) =
       Normal (send 500 (failure "Model is not loaded yet. Please try again later."))) /\
  tf_calls (snd (post_predict req w)) = tf_calls w /\
  snd (post_predict req w) = w.
Proof.
  intros Hmodel.
  assert (Hlet : forall req_file, upload_single req = inr req_file ->
            fst (post_predict req w) =
              Normal (send 500 (failure "Model is not loaded yet. Please try again later."))).
  { intros req_file Hup. unfold post_predict. rewrite Hup.
    now rewrite (predict_handler_model_unset req_file w Hmodel). }
  destruct (upload_single_lets_through req) as [Hnone Himage].
  split; [exact Hlet|].
  split; [intros Hfile; exact (Hlet None (Hnone Hfile))|].
  split; [intros file Hfile Hmime Hsize;
          exact (Hlet (Some file) (Himage file Hfile Hmime Hsize))|].
  unfold post_predict. destruct (upload_single req) as [err|req_file'].
  - split; reflexivity.
  - rewrite (predict_handler_model_unset req_file' w Hmodel). split; reflexivity.
Qed.

(** C7.  Calling [POST /predict] with the model loaded but without a file
    field yields HTTP 400 with status "fail" and the message
    "File not uploaded". *)
Theorem missing_file_answer (m : LayersModel) (w : World) :
  model w = Some m ->
  post_predict (Request.mk None) w =
    (Normal (send 400 (failure "File not uploaded")), w).
Proof.
  intros Hmodel. run. cbn. now rewrite Hmodel.
Qed.

(** C9.  Every call to [GET /test-firestore] returns HTTP 200 with status
    "success" and the message "Firestore connected!" when the write of the
    diagnostic document succeeds, the document then being stored as
    [test/testDoc]; and HTTP 500 with status "fail" and, as message, the
    message of the error when the write fails, nothing being stored. *)
Theorem test_firestore_answer (w : World) :
  match Env.firestore_fault env with
  | None =>
      fst (get_test_firestore w) =
        Normal (send 200 (Body.mk "success" "Firestore connected!" None)) /\
      test (snd (get_test_firestore w)) =
        <["testDoc" := TestDoc.mk "Hello, Firestore!" (Env.toISOString env)]> (test w)
  | Some error =>
      fst (get_test_firestore w) =
        Normal (send 500 (Body.mk "fail" (JsError.message error) None)) /\
      test (snd (get_test_firestore w)) = test w
  end.
Proof.
  run. destruct (Env.firestore_fault env) as [error|]; split; reflexivity.
Qed.

(** C10, amended.  In [POST /predict], model readiness is checked before file
    presence: for every request made while the model reference is unset and
    that the upload middleware lets through, the response is the 500
    "Model is not loaded yet. Please try again later." envelope, so it is for
    the request without a file field; and the 400 "File not uploaded"
    response cannot occur while the model reference is unset. *)
Theorem readiness_checked_before_file (req : Request.t) (w : World) :
  model w = None ->
  (forall req_file, upload_single req = inr req_file ->
     fst (post_predict req w) =
       Normal (send 500 (failure "Model is not loaded yet. Please try again later."))) /\
  fst (post_predict (Request.mk None) w) =
    Normal (send 500 (failure "Model is not loaded yet. Please try again later.")) /\
  (forall r, fst (post_predict req w) = Normal r -> Response.code r <> 400).
Proof.
  intros Hmodel. split; [|split].
  - intros req_file Hup. unfold post_predict. rewrite Hup.
    now rewrite (predict_handler_model_unset req_file w Hmodel).
  - unfold post_predict. rewrite upload_single_no_file.
    now rewrite (predict_handler_model_unset None w Hmodel).
  - intros r. unfold post_predict.
    destruct (upload_single_cases req) as [Hup|[Hup|Hup]]; rewrite Hup.
    + intros [= <-]. discriminate.
    + intros [= <-]. discriminate.
    + rewrite (predict_handler_model_unset _ w Hmodel). intros [= <-]. discriminate.
Qed.

(** The two outcomes of [POST /predict] for the [predictions] collection. *)
Lemma post_predict_outcome (req : Request.t) (w : World) :
  (forall score,
     inference_score req w = Some score ->
     Env.firestore_fault env = None ->
     fst (post_predict req w) =
       Normal (send 200 (Body.mk "success" "Prediction successful"
                           (Some (record_for score w)))) /\
     predictions (snd (post_predict req w)) =
       <[Env.uuidv4 env (uuids_drawn w) := record_for score w]> (predictions w) /\
     uuids_drawn (snd (post_predict req w)) = S (uuids_drawn w)) /\
  (inference_score req w = None \/ is_Some (Env.firestore_fault env) ->
     (exists code message,
        fst (post_predict req w) = Normal (send code (failure message)) /\
        code <> 200) /\
     predictions (snd (post_predict req w)) = predictions w).
Proof.
  unfold inference_score, post_predict.
  destruct (upload_single_cases req) as [Hup|[Hup|Hup]]; rewrite Hup.
  1, 2: split; [discriminate|]; intros _; split; [|reflexivity];
        do 2 eexists; split; [reflexivity|discriminate].
  destruct (Request.image req) as [file|], (model w) as [m|] eqn:Hm;
    run; rewrite ?Hm; cbv beta iota.
  2, 3, 4: split; [discriminate|]; intros _; split; [|reflexivity];
        do 2 eexists; split; [reflexivity|discriminate].
  repeat next_answer.
  all: (split; [intros score Hs Hf; try discriminate | intros [H|[e' H]]; try discriminate]).
  all: try (split; [|reflexivity]; do 2 eexists; split; [reflexivity|discriminate]).
  injection Hs as <-. repeat split.
Qed.

(** [uuidv4()] is called at most once in a request, and its calls are never
    forgotten. *)
Lemma post_predict_draws (req : Request.t) (w : World) :
  (uuids_drawn w <= uuids_drawn (snd (post_predict req w)))%nat.
Proof.
  unfold post_predict.
  destruct (upload_single req) as [err|[file|]]; [reflexivity| |];
    run; (destruct (model w) as [m|]; [|reflexivity]); [|reflexivity].
  repeat next_answer;
    cbn [snd uuids_drawn printed with_prediction drawn logged]; lia.
Qed.

(** The identifiers of the stored predictions are identifiers that were
    drawn: this holds when the process starts and every request keeps it. *)
Lemma stored_under_drawn_ids_initial :
  stored_under_drawn_ids initial_world.
Proof.
  intros id [doc Hdoc]. cbn in Hdoc. now rewrite lookup_empty in Hdoc.
Qed.

Lemma stored_under_drawn_ids_post_predict (req : Request.t) (w : World) :
  stored_under_drawn_ids w ->
  stored_under_drawn_ids (snd (post_predict req w)).
Proof.
  intros Hinv id Hid.
  destruct (post_predict_outcome req w) as [Hsuccess Hfailure].
  pose proof (post_predict_draws req w) as Hdraws.
  destruct (inference_score req w) as [score|] eqn:Hscore.
  - destruct (Env.firestore_fault env) as [e|] eqn:Hfault.
    + destruct Hfailure as [_ Hsame]; [right; eauto|].
      rewrite Hsame in Hid. destruct (Hinv id Hid) as (n & Hn & ->).
      exists n. split; [lia | reflexivity].
    + destruct (Hsuccess score eq_refl eq_refl) as (_ & Hstored & Hdrawn).
      rewrite Hstored in Hid. rewrite Hdrawn.
      destruct (decide (Env.uuidv4 env (uuids_drawn w) = id)) as [<-|Hne].
      * exists (uuids_drawn w). split; [lia | reflexivity].
      * rewrite lookup_insert_ne in Hid by exact Hne.
        destruct (Hinv id Hid) as (n & Hn & ->).
        exists n. split; [lia | reflexivity].
  - destruct Hfailure as [_ Hsame]; [left; reflexivity|].
    rewrite Hsame in Hid. destruct (Hinv id Hid) as (n & Hn & ->).
    exists n. split; [lia | reflexivity].
Qed.

(** When [uuidv4()] never returns the same identifier twice, the identifier
    of a new record is not the identifier of a stored one: a successful
    prediction adds one record and leaves the others as they were. *)
Lemma successful_prediction_adds_one_record (req : Request.t) (w : World)
    (score : option float) :
  Inj (=) (=) (Env.uuidv4 env) ->
  stored_under_drawn_ids w ->
  inference_score req w = Some score ->
  Env.firestore_fault env = None ->
  predictions w !! Env.uuidv4 env (uuids_drawn w) = None /\
  size (predictions (snd (post_predict req w))) = S (size (predictions w)) /\
  predictions w ⊆ predictions (snd (post_predict req w)).
Proof.
  intros Hinj Hinv Hscore Hfault.
  assert (Hfresh : predictions w !! Env.uuidv4 env (uuids_drawn w) = None).
  { destruct (predictions w !! Env.uuidv4 env (uuids_drawn w)) as [doc|] eqn:Hdoc;
      [|reflexivity].
    destruct (Hinv (Env.uuidv4 env (uuids_drawn w))) as (n & Hn & Heq); [eauto|].
    apply Hinj in Heq. lia. }
  destruct (post_predict_outcome req w) as [Hsuccess _].
  destruct (Hsuccess score Hscore Hfault) as (_ & Hstored & _).
  rewrite Hstored. split; [exact Hfresh|]. split.
  - now apply map_size_insert_None.
  - now apply insert_subseteq.
Qed.

(** C1, amended.  For every request to [POST /predict], a prediction record
    is persisted if and only if the inference on that request completed
    successfully and the record store accepted the write.  In that case
    exactly one record is written, under the identifier [uuidv4()] generated
    for this request; its result and suggestion are those of the interpreted
    score; and the data payload of the 200 response is the persisted record,
    [{id, result, suggestion, createdAt}].  Otherwise the response is a
    failure and the collection is left as it was; so it is for a request that
    fails because the model is not loaded, the file is missing, decoding
    throws or the prediction throws. *)
Theorem record_persisted_iff (req : Request.t) (w : World) :
  (forall score,
     inference_score req w = Some score ->
     Env.firestore_fault env = None ->
     fst (post_predict req w) =
       Normal (send 200 (Body.mk "success" "Prediction successful"
                           (Some (record_for score w)))) /\
     predictions (snd (post_predict req w)) =
       <[Env.uuidv4 env (uuids_drawn w) := record_for score w]> (predictions w) /\
     uuids_drawn (snd (post_predict req w)) = S (uuids_drawn w)) /\
  (inference_score req w = None \/ is_Some (Env.firestore_fault env) ->
     (exists code message,
        fst (post_predict req w) = Normal (send code (failure message)) /\
        code <> 200) /\
     predictions (snd (post_predict req w)) = predictions w) /\
  (model w = None \/
   Request.image req = None \/
   (exists file e,
      Request.image req = Some file /\
      Tf.decodeImage tf (File.buffer file) 3 = Throw e) \/
   (exists file m decoded resized expanded imageTensor e,
      Request.image req = Some file /\
      model w = Some m /\
      Tf.decodeImage tf (File.buffer file) 3 = Normal decoded /\
      Tf.resizeBilinear tf decoded (224, 224) = Normal resized /\
      Tf.expandDims tf resized 0 = Normal expanded /\
      Tf.div tf expanded (Tf.scalar tf 255) = Normal imageTensor /\
      Tf.predict tf m imageTensor = Throw e) ->
   predictions (snd (post_predict req w)) = predictions w).
Proof.
  destruct (post_predict_outcome req w) as [Hsuccess Hfailure].
  split; [exact Hsuccess | split; [exact Hfailure |]].
  intros Hstage. apply Hfailure. left. unfold inference_score.
  destruct (upload_single_cases req) as [Hup|[Hup|Hup]]; rewrite Hup;
    try reflexivity.
  destruct Hstage as
    [Hm | [Hf | [(file & e & Hf & Hd)
                | (file & m & decoded & resized & expanded & imageTensor & e
                   & Hf & Hm & Hd & Hr & He & Hdiv & Hp)]]].
  - rewrite Hm. now destruct (Request.image req).
  - now rewrite Hf.
  - rewrite Hf, Hd. now destruct (model w).
  - now rewrite Hf, Hm, Hd, Hr, He, Hdiv, Hp.
Qed.

(** C8.  For every accepted upload, with the model loaded, the handler
    prepares the image by exactly these calls, in this order, before it calls
    the model: [decodeImage] of the bytes with 3 channels, [resizeBilinear] to
    224 by 224, [expandDims] at axis 0, [div] by [scalar(255)]; the model is
    called on the result; the output is read by [array()], and the score the
    response and the record interpret is its element at [0][0].  The model is
    never called on anything else than the outcome of these four steps. *)
Theorem preprocessing_pipeline (req : Request.t) (file : File.t)
    (m : LayersModel) (w : World) :
  upload_single req = inr (Some file) ->
  model w = Some m ->
  (forall decoded resized expanded imageTensor prediction row rest,
     Tf.decodeImage tf (File.buffer file) 3 = Normal decoded ->
     Tf.resizeBilinear tf decoded (224, 224) = Normal resized ->
     Tf.expandDims tf resized 0 = Normal expanded ->
     Tf.div tf expanded (Tf.scalar tf 255) = Normal imageTensor ->
     Tf.predict tf m imageTensor = Normal prediction ->
     Tf.array tf prediction = Normal (row :: rest) ->
     tf_calls (snd (post_predict req w)) =
       (tf_calls w ++
        [Tf.DecodeImage (File.buffer file) 3;
         Tf.ResizeBilinear decoded (224, 224);
         Tf.ExpandDims resized 0;
         Tf.Scalar 255;
         Tf.Div expanded (Tf.scalar tf 255);
         Tf.Predict m imageTensor;
         Tf.Array prediction])%list /\
     (Env.firestore_fault env = None ->
      fst (post_predict req w) =
        Normal (send 200 (Body.mk "success" "Prediction successful"
                            (Some (record_for (head row) w)))))) /\
  (exists calls,
     tf_calls (snd (post_predict req w)) = (tf_calls w ++ calls)%list /\
     forall m' x,
       In (Tf.Predict m' x) calls ->
       m' = m /\
       exists decoded resized expanded later,
         Tf.decodeImage tf (File.buffer file) 3 = Normal decoded /\
         Tf.resizeBilinear tf decoded (224, 224) = Normal resized /\
         Tf.expandDims tf resized 0 = Normal expanded /\
         Tf.div tf expanded (Tf.scalar tf 255) = Normal x /\
         calls =
           ([Tf.DecodeImage (File.buffer file) 3;
             Tf.ResizeBilinear decoded (224, 224);
             Tf.ExpandDims resized 0;
             Tf.Scalar 255;
             Tf.Div expanded (Tf.scalar tf 255);
             Tf.Predict m x] ++ later)%list).
Proof.
  intros Hup Hm. unfold post_predict. rewrite Hup. split.
  - intros decoded resized expanded imageTensor prediction row rest
      Hd Hr He Hdiv Hp Ha.
    run. rewrite Hm. cbv beta iota. rewrite Hd. cbv beta iota.
    rewrite Hr. cbv beta iota. rewrite He. cbv beta iota.
    rewrite Hdiv. cbv beta iota. rewrite Hp. cbv beta iota.
    rewrite Ha. unfold mret, M_ret. cbv beta iota.
    destruct (Env.firestore_fault env) as [e|]; cbv beta iota.
    + split; [|discriminate].
      cbn [snd tf_calls printed logged drawn]. now rewrite <- !app_assoc.
    + split; [|reflexivity].
      cbn [snd tf_calls with_prediction logged drawn]. now rewrite <- !app_assoc.
  - run. rewrite Hm. cbv beta iota. repeat next_answer.
    all: eexists; split;
      [ cbn [snd tf_calls printed with_prediction logged drawn];
        rewrite <- ?app_assoc; cbn [app]; reflexivity | ].
    all: intros m' x Hin; cbn [In] in Hin.
    all: repeat (destruct Hin as [Hin|Hin]; try discriminate Hin).
    all: try (exfalso; exact Hin).
    all: injection Hin as <- <-; split; [reflexivity|]; do 4 eexists;
      repeat split; eauto.
Qed.

(** ** Further properties of one request *)

(** Case analysis on a request to [POST /predict]: the two errors of the
    upload middleware, then the branches of the handler. *)
Ltac post_predict_cases req w :=
  unfold post_predict;
  let Hup := fresh "Hup" in
  destruct (upload_single_cases req) as [Hup|[Hup|Hup]]; rewrite Hup;
  [ | | let file := fresh "file" in
        let m := fresh "m" in
        let Himage := fresh "Himage" in
        let Hm := fresh "Hm" in
        destruct (Request.image req) as [file|] eqn:Himage;
        destruct (model w) as [m|] eqn:Hm;
        run; rewrite ?Hm; cbv beta iota ].

(** A file that reaches the handler is the file of the request, and it passed
    both checks of the upload middleware. *)
Lemma upload_single_accepted (req : Request.t) (file : File.t) :
  upload_single req = inr (Some file) ->
  Request.image req = Some file /\
  startsWith (File.mimetype file) "image/" = true /\
  Buffer.length (File.buffer file) <= 1000000.
Proof.
  unfold upload_single, fileFilter.
  destruct (Request.image req) as [file'|]; [|discriminate].
  destruct (startsWith (File.mimetype file') "image/") eqn:Hmime; cbn;
    [|discriminate].
  destruct (Z.leb_spec fileSize (Buffer.length (File.buffer file'))) as [Hsize|Hsize];
    [discriminate|].
  intros [= <-]. unfold fileSize in Hsize. repeat split; [assumption | lia].
Qed.

(** X1.  The upload middleware hands a file to the handler only when it is
    the file of the request, its MIME type starts with [image/] and it has at
    most 1,000,000 bytes; and it hands over no file only when the request has
    none: a file is never dropped silently. *)
Theorem upload_single_accepts (req : Request.t) :
  (forall file,
     upload_single req = inr (Some file) ->
     Request.image req = Some file /\
     startsWith (File.mimetype file) "image/" = true /\
     Buffer.length (File.buffer file) <= 1000000) /\
  (upload_single req = inr None <-> Request.image req = None).
Proof.
  unfold upload_single, fileFilter.
  destruct (Request.image req) as [file'|]; [|split; [discriminate | tauto]].
  destruct (startsWith (File.mimetype file') "image/") eqn:Hmime; cbn.
  - destruct (Z.leb_spec fileSize (Buffer.length (File.buffer file'))) as [Hsize|Hsize].
    + split; [discriminate | split; discriminate].
    + split; [|split; discriminate].
      intros file [= <-]. unfold fileSize in Hsize. repeat split; [assumption | lia].
  - split; [discriminate | split; discriminate].
Qed.

(** X2.  During a request to [POST /predict], TensorFlow.js is called only
    for an upload that was accepted while the model is loaded, and the first
    call decodes the buffer of that upload with 3 channels; at most seven
    calls are made. *)
Theorem tf_called_only_on_accepted_upload (req : Request.t) (w : World) :
  exists calls,
    tf_calls (snd (post_predict req w)) = (tf_calls w ++ calls)%list /\
    (List.length calls <= 7)%nat /\
    (calls = [] \/
     exists file m later,
       Request.image req = Some file /\
       model w = Some m /\
       startsWith (File.mimetype file) "image/" = true /\
       Buffer.length (File.buffer file) <= 1000000 /\
       calls = Tf.DecodeImage (File.buffer file) 3 :: later).
Proof.
  post_predict_cases req w.
  1, 2, 4, 5, 6: exists []; rewrite app_nil_r; cbn; split; [reflexivity | split; [lia | auto]].
  destruct (upload_single_accepted req file Hup) as (_ & Hmime & Hsize).
  repeat next_answer.
  all: eexists; split;
    [ cbn [snd tf_calls printed with_prediction logged drawn];
      rewrite <- ?app_assoc; cbn [app]; reflexivity | ].
  all: split; [cbn; lia | right; do 3 eexists; eauto 10].
Qed.

(** X3.  [POST /predict] answers every request of [Request.t], a request
    whose body has no part but, at most, one file in the form field [image],
    and with one of six envelopes: the five failures, whose messages are
    fixed texts, and the success, which carries the record of the interpreted
    score.  What an error thrown by TensorFlow.js or Firestore says never
    reaches the client. *)
Theorem post_predict_answers (req : Request.t) (w : World) :
  exists r,
    fst (post_predict req w) = Normal r /\
    (r = send 500 (failure "File must be an image") \/
     r = send 413 (failure "Payload content length greater than maximum allowed: 1MB") \/
     r = send 500 (failure "Model is not loaded yet. Please try again later.") \/
     r = send 400 (failure "File not uploaded") \/
     r = send 500 (failure "An error occurred during prediction") \/
     exists score,
       inference_score req w = Some score /\
       Env.firestore_fault env = None /\
       r = send 200 (Body.mk "success" "Prediction successful"
                       (Some (record_for score w)))).
Proof.
  unfold inference_score.
  post_predict_cases req w.
  3: repeat next_answer.
  all: eexists; (split; [reflexivity|]); eauto 10.
Qed.

(** X4.  A request to [POST /predict] never assigns the [model] variable and
    never writes to the [test] collection; the console only grows. *)
Theorem post_predict_frame (req : Request.t) (w : World) :
  model (snd (post_predict req w)) = model w /\
  test (snd (post_predict req w)) = test w /\
  exists lines, console (snd (post_predict req w)) = (console w ++ lines)%list.
Proof.
  post_predict_cases req w.
  3: repeat next_answer.
  all: cbn [snd model test console printed with_prediction logged drawn].
  all: rewrite ?Hm; split; [reflexivity|]; split; [reflexivity|].
  all: first [ exists []; now rewrite app_nil_r | eexists; reflexivity ].
Qed.

(** X5.  The handler of [POST /predict] prints to the console exactly when
    its [try] block throws, on an accepted upload with the model loaded: the
    answer is then the 500 "An error occurred during prediction", and one
    line is printed, "Error during prediction:" with the very error that was
    thrown.  In every other case the answer is another one and nothing is
    printed. *)
Theorem prediction_errors_are_logged (req : Request.t) (w : World) :
  match upload_single req, model w with
  | inr (Some file), Some m =>
      match thrown_error file m with
      | Some error =>
          fst (post_predict req w) =
            Normal (send 500 (failure "An error occurred during prediction")) /\
          console (snd (post_predict req w)) =
            (console w ++ [("Error during prediction:", Some error)])%list
      | None =>
          fst (post_predict req w) <>
            Normal (send 500 (failure "An error occurred during prediction")) /\
          console (snd (post_predict req w)) = console w
      end
  | _, _ =>
      fst (post_predict req w) <>
        Normal (send 500 (failure "An error occurred during prediction")) /\
      console (snd (post_predict req w)) = console w
  end.
Proof.
  unfold thrown_error.
  post_predict_cases req w.
  3: repeat next_answer.
  all: cbn [fst snd console printed with_prediction logged drawn].
  all: split; first [reflexivity | discriminate].
Qed.

(** X6.  [uuidv4()] is called exactly when the inference on the request has
    completed, and then once: so it is when Firestore then rejects the write,
    which uses up an identifier without storing a record. *)
Theorem identifier_drawn_iff_inference_completed (req : Request.t) (w : World) :
  uuids_drawn (snd (post_predict req w)) =
    match inference_score req w with
    | Some _ => S (uuids_drawn w)
    | None => uuids_drawn w
    end.
Proof.
  unfold inference_score.
  post_predict_cases req w.
  3: repeat next_answer.
  all: reflexivity.
Qed.

(** X7.  What a 200 response of [POST /predict] reports can be read back: its
    data is the document stored in [predictions] under the reported [id]; the
    [id] is the identifier drawn for the request, [createdAt] the time of the
    request, and result and suggestion are one of the two pairs
    Cancer / "Segera periksa ke dokter!" and
    Non-cancer / "Penyakit kanker tidak terdeteksi.". *)
Theorem ok_response_is_stored (req : Request.t) (w : World) (r : Response.t) :
  fst (post_predict req w) = Normal r ->
  Response.code r = 200 ->
  exists doc,
    Response.body r = Body.mk "success" "Prediction successful" (Some doc) /\
    predictions (snd (post_predict req w)) !! Prediction.id doc = Some doc /\
    Prediction.id doc = Env.uuidv4 env (uuids_drawn w) /\
    Prediction.createdAt doc = Env.toISOString env /\
    ((Prediction.result doc = "Cancer" /\
      Prediction.suggestion doc = "Segera periksa ke dokter!") \/
     (Prediction.result doc = "Non-cancer" /\
      Prediction.suggestion doc = "Penyakit kanker tidak terdeteksi.")).
Proof.
  intros Hr Hcode.
  destruct (post_predict_outcome req w) as [Hsuccess Hfailure].
  destruct (inference_score req w) as [score|] eqn:Hscore.
  - destruct (Env.firestore_fault env) as [e|] eqn:Hfault.
    + destruct Hfailure as [(code & message & Hfail & Hne) _]; [right; eauto|].
      rewrite Hfail in Hr. injection Hr as <-. contradiction.
    + destruct (Hsuccess score eq_refl eq_refl) as (Hok & Hstored & _).
      rewrite Hok in Hr. injection Hr as <-.
      exists (record_for score w). split; [reflexivity|].
      split; [rewrite Hstored; apply lookup_insert_eq|].
      split; [reflexivity|]. split; [reflexivity|].
      unfold record_for, result_of. cbn.
      destruct (gt_half score); [left | right]; split; reflexivity.
  - destruct Hfailure as [(code & message & Hfail & Hne) _]; [left; reflexivity|].
    rewrite Hfail in Hr. injection Hr as <-. contradiction.
Qed.

(** X8.  When the output of the model has no row, reading
    [predictionArray[0][0]] throws: the answer is the 500 of the [catch]
    block, the [TypeError] is printed, no identifier is drawn and nothing is
    stored. *)
Theorem empty_output_answer (req : Request.t) (file : File.t) (m : LayersModel)
    (w : World) (decoded resized expanded imageTensor prediction : Tensor) :
  upload_single req = inr (Some file) ->
  model w = Some m ->
  Tf.decodeImage tf (File.buffer file) 3 = Normal decoded ->
  Tf.resizeBilinear tf decoded (224, 224) = Normal resized ->
  Tf.expandDims tf resized 0 = Normal expanded ->
  Tf.div tf expanded (Tf.scalar tf 255) = Normal imageTensor ->
  Tf.predict tf m imageTensor = Normal prediction ->
  Tf.array tf prediction = Normal [] ->
  fst (post_predict req w) =
    Normal (send 500 (failure "An error occurred during prediction")) /\
  console (snd (post_predict req w)) =
    (console w ++
     [("Error during prediction:",
       Some (TypeError "Cannot read properties of undefined (reading '0')"))])%list /\
  uuids_drawn (snd (post_predict req w)) = uuids_drawn w /\
  predictions (snd (post_predict req w)) = predictions w.
Proof.
  intros Hup Hm Hd Hr He Hdiv Hp Ha. unfold post_predict. rewrite Hup.
  run. rewrite Hm. cbv beta iota. rewrite Hd. cbv beta iota.
  rewrite Hr. cbv beta iota. rewrite He. cbv beta iota.
  rewrite Hdiv. cbv beta iota. rewrite Hp. cbv beta iota.
  rewrite Ha. cbv beta iota. repeat split.
Qed.

(** X9.  When the first row of the output of the model is empty, the score
    read at [0][0] is [undefined] and the comparison with 0.5 is false: the
    result is "Non-cancer".  When Firestore accepts the write, the request is
    answered 200 with this result and the suggestion
    "Penyakit kanker tidak terdeteksi.", and the record is stored; when
    Firestore rejects the write, the request is answered 500 and nothing is
    stored. *)
Theorem empty_row_answer (req : Request.t) (w : World) :
  inference_score req w = Some None ->
  result_of None = "Non-cancer" /\
  match Env.firestore_fault env with
  | None =>
      fst (post_predict req w) =
        Normal (send 200 (Body.mk "success" "Prediction successful"
                            (Some (Prediction.mk (Env.uuidv4 env (uuids_drawn w))
                                     "Non-cancer"
                                     "Penyakit kanker tidak terdeteksi."
                                     (Env.toISOString env))))) /\
      predictions (snd (post_predict req w)) !! Env.uuidv4 env (uuids_drawn w) =
        Some (Prediction.mk (Env.uuidv4 env (uuids_drawn w))
                "Non-cancer" "Penyakit kanker tidak terdeteksi."
                (Env.toISOString env))
  | Some _ =>
      fst (post_predict req w) =
        Normal (send 500 (failure "An error occurred during prediction")) /\
      predictions (snd (post_predict req w)) = predictions w
  end.
Proof.
  intros Hscore. split; [reflexivity|]. revert Hscore.
  unfold inference_score.
  post_predict_cases req w.
  1, 2, 4, 5, 6: discriminate.
  repeat next_answer; intros Hscore; try discriminate.
  - split; reflexivity.
  - injection Hscore as ->. split; [reflexivity|].
    cbn [snd predictions with_prediction]. apply lookup_insert_eq.
Qed.

(** ** Further properties of the other operations *)

(** X10.  [loadModel] never throws.  It calls [tf.loadLayersModel] once, with
    [BUCKET_URL], and prints one line; [model] is assigned when the call
    answers and left as it was, with the error printed, when it throws.
    Firestore and the identifiers are not touched. *)
Theorem loadModel_outcome (w : World) :
  fst (loadModel w) = Normal tt /\
  tf_calls (snd (loadModel w)) = (tf_calls w ++ [Tf.LoadLayersModel BUCKET_URL])%list /\
  match Tf.loadLayersModel tf BUCKET_URL with
  | Normal m =>
      model (snd (loadModel w)) = Some m /\
      console (snd (loadModel w)) =
        (console w ++ [("Model loaded successfully!", None)])%list
  | Throw error =>
      model (snd (loadModel w)) = model w /\
      console (snd (loadModel w)) =
        (console w ++ [("Error loading model:", Some error)])%list
  end /\
  predictions (snd (loadModel w)) = predictions w /\
  test (snd (loadModel w)) = test w /\
  uuids_drawn (snd (loadModel w)) = uuids_drawn w.
Proof.
  run. destruct (Tf.loadLayersModel tf BUCKET_URL) as [m|error]; repeat split.
Qed.

(** X11.  [GET /test-firestore] touches nothing but the document
    [test/testDoc] and the console: the model, the predictions, the
    identifiers and the other documents of [test] are left as they were, and
    TensorFlow.js is not called.  A line is printed exactly when the write is
    rejected. *)
Theorem get_test_firestore_frame (w : World) :
  model (snd (get_test_firestore w)) = model w /\
  predictions (snd (get_test_firestore w)) = predictions w /\
  tf_calls (snd (get_test_firestore w)) = tf_calls w /\
  uuids_drawn (snd (get_test_firestore w)) = uuids_drawn w /\
  (forall id, id <> "testDoc" ->
     test (snd (get_test_firestore w)) !! id = test w !! id) /\
  console (snd (get_test_firestore w)) =
    match Env.firestore_fault env with
    | None => console w
    | Some error => (console w ++ [("Error testing Firestore:", Some error)])%list
    end.
Proof.
  run. destruct (Env.firestore_fault env) as [error|]; repeat split.
  intros id Hid. cbn. now rewrite lookup_insert_ne.
Qed.

(** X12.  [GET /test-firestore] overwrites: calling it again at the same time
    leaves the [test] collection as the first call left it, and the
    collection never gains more than one document. *)
Theorem get_test_firestore_overwrites (w : World) :
  test (snd (get_test_firestore (snd (get_test_firestore w)))) =
    test (snd (get_test_firestore w)) /\
  (size (test (snd (get_test_firestore w))) <= S (size (test w)))%nat /\
  (is_Some (test w !! "testDoc") ->
   size (test (snd (get_test_firestore w))) = size (test w)).
Proof.
  run. destruct (Env.firestore_fault env) as [error|];
    cbn [snd test printed with_test].
  - split; [reflexivity|]. split; [lia | reflexivity].
  - split; [apply insert_insert_eq|]. split.
    + rewrite map_size_insert. destruct (test w !! "testDoc"); cbn; lia.
    + intros Hdoc. now apply map_size_insert_Some.
Qed.

(** ** One event *)

(** What [loadModel] changes. *)
Lemma loadModel_effect (w : World) :
  model (snd (loadModel w)) =
    match Tf.loadLayersModel tf BUCKET_URL with
    | Normal m => Some m
    | Throw _ => model w
    end /\
  predictions (snd (loadModel w)) = predictions w /\
  test (snd (loadModel w)) = test w /\
  uuids_drawn (snd (loadModel w)) = uuids_drawn w /\
  tf_calls (snd (loadModel w)) = (tf_calls w ++ [Tf.LoadLayersModel BUCKET_URL])%list.
Proof.
  run. destruct (Tf.loadLayersModel tf BUCKET_URL); repeat split.
Qed.

(** What a request to [POST /predict] keeps. *)
Lemma post_predict_keeps (req : Request.t) (w : World) :
  model (snd (post_predict req w)) = model w /\
  test (snd (post_predict req w)) = test w.
Proof.
  post_predict_cases req w.
  3: repeat next_answer.
  all: cbn [snd model test printed with_prediction logged drawn].
  all: rewrite ?Hm; split; reflexivity.
Qed.

(** What a request to [GET /test-firestore] keeps; its response carries no
    record. *)
Lemma get_test_firestore_keeps (w : World) :
  model (snd (get_test_firestore w)) = model w /\
  predictions (snd (get_test_firestore w)) = predictions w /\
  tf_calls (snd (get_test_firestore w)) = tf_calls w /\
  uuids_drawn (snd (get_test_firestore w)) = uuids_drawn w /\
  (forall id, id <> "testDoc" ->
     test (snd (get_test_firestore w)) !! id = test w !! id) /\
  (r ← sent (fst (get_test_firestore w)); Body.data (Response.body r)) = None.
Proof.
  run. destruct (Env.firestore_fault env) as [error|]; repeat split.
  intros id Hid. cbn. now rewrite lookup_insert_ne.
Qed.

(** While the model is unset, a request to [POST /predict] is answered with a
    failure and changes nothing. *)
Lemma post_predict_model_unset (req : Request.t) (w : World) :
  model w = None ->
  snd (post_predict req w) = w /\
  exists r, fst (post_predict req w) = Normal r /\
            Body.status (Response.body r) = "fail".
Proof.
  intros Hmodel. unfold post_predict.
  destruct (upload_single_cases req) as [Hup|[Hup|Hup]]; rewrite Hup.
  1, 2: split; [reflexivity | eexists; split; reflexivity].
  rewrite (predict_handler_model_unset _ w Hmodel).
  split; [reflexivity | eexists; split; reflexivity].
Qed.

(** No event unsets the model; only [loadModel] assigns it. *)
Lemma serve_one_model (ev : Event) (w : World) :
  (is_Some (model w) -> is_Some (model (snd (serve_one ev w)))) /\
  (ev <> LoadModel -> model (snd (serve_one ev w)) = model w).
Proof.
  destruct ev as [|req|]; cbn [serve_one snd].
  - split; [|congruence].
    destruct (loadModel_effect w) as (-> & _).
    destruct (Tf.loadLayersModel tf BUCKET_URL); eauto.
  - destruct (post_predict_keeps req w) as (-> & _). tauto.
  - destruct (get_test_firestore_keeps w) as (-> & _). tauto.
Qed.

(** No event touches a document of [test] other than [testDoc]. *)
Lemma serve_one_test (ev : Event) (w : World) (id : string) :
  id <> "testDoc" ->
  test (snd (serve_one ev w)) !! id = test w !! id.
Proof.
  intros Hid. destruct ev as [|req|]; cbn [serve_one snd].
  - destruct (loadModel_effect w) as (_ & _ & -> & _). reflexivity.
  - destruct (post_predict_keeps req w) as (_ & ->). reflexivity.
  - destruct (get_test_firestore_keeps w) as (_ & _ & _ & _ & Htest & _). auto.
Qed.

(** While the model cannot be fetched and is unset, an event leaves it unset
    and stores no prediction; a request to [POST /predict] is answered with a
    failure; TensorFlow.js is called only to fetch the model. *)
Lemma serve_one_model_unset (e : JsError.t) (ev : Event) (w : World) :
  Tf.loadLayersModel tf BUCKET_URL = Throw e ->
  model w = None ->
  model (snd (serve_one ev w)) = None /\
  predictions (snd (serve_one ev w)) = predictions w /\
  (forall req, ev = PostPredict req ->
     exists r, fst (serve_one ev w) = Some r /\
               Body.status (Response.body r) = "fail") /\
  tf_calls (snd (serve_one ev w)) =
    (tf_calls w ++
     match ev with LoadModel => [Tf.LoadLayersModel BUCKET_URL] | _ => [] end)%list.
Proof.
  intros Hload Hmodel. destruct ev as [|req|]; cbn [serve_one fst snd].
  - destruct (loadModel_effect w) as (Hm & Hp & _ & _ & Hcalls).
    rewrite Hload in Hm.
    rewrite Hm, Hp, Hcalls. repeat split; [assumption | discriminate].
  - destruct (post_predict_model_unset req w Hmodel) as (Hsame & r & Hr & Hfail).
    rewrite Hsame, app_nil_r. repeat split; [assumption|].
    intros req' _. exists r. rewrite Hr. split; [reflexivity | exact Hfail].
  - destruct (get_test_firestore_keeps w) as (-> & -> & -> & _).
    rewrite app_nil_r. repeat split; [assumption | discriminate].
Qed.

(** What an event does to the [predictions] collection, in a world in which
    the identifiers that [uuidv4()] has yet to return are not in use: nothing,
    unless its response carries a record; the record is then stored under its
    identifier, the one just drawn; and the identifiers yet to come are still
    not in use. *)
Lemma serve_one_fresh (ev : Event) (w : World) :
  Inj (=) (=) (Env.uuidv4 env) ->
  (forall n, (uuids_drawn w <= n)%nat ->
     predictions w !! Env.uuidv4 env n = None) ->
  (forall n, (uuids_drawn (snd (serve_one ev w)) <= n)%nat ->
     predictions (snd (serve_one ev w)) !! Env.uuidv4 env n = None) /\
  (uuids_drawn w <= uuids_drawn (snd (serve_one ev w)))%nat /\
  match r ← fst (serve_one ev w); Body.data (Response.body r) with
  | Some doc =>
      Prediction.id doc = Env.uuidv4 env (uuids_drawn w) /\
      uuids_drawn (snd (serve_one ev w)) = S (uuids_drawn w) /\
      predictions w !! Prediction.id doc = None /\
      predictions (snd (serve_one ev w)) =
        <[Prediction.id doc := doc]> (predictions w)
  | None => predictions (snd (serve_one ev w)) = predictions w
  end.
Proof.
  intros Hinj Hfresh. destruct ev as [|req|]; cbn [serve_one fst snd].
  - destruct (loadModel_effect w) as (_ & Hp & _ & Hu & _).
    rewrite Hu, Hp. split; [exact Hfresh|]. split; [lia | reflexivity].
  - pose proof (post_predict_draws req w) as Hdraws.
    destruct (post_predict_outcome req w) as [Hsuccess Hfailure].
    assert (Hkept : predictions (snd (post_predict req w)) = predictions w ->
              forall n, (uuids_drawn (snd (post_predict req w)) <= n)%nat ->
                predictions (snd (post_predict req w)) !! Env.uuidv4 env n = None).
    { intros Hsame n Hn. rewrite Hsame. apply Hfresh. lia. }
    destruct (inference_score req w) as [score|] eqn:Hscore.
    + destruct (Env.firestore_fault env) as [e|] eqn:Hfault.
      * destruct Hfailure as [(code & message & -> & _) Hsame]; [right; eauto|].
        split; [exact (Hkept Hsame)|]. split; [exact Hdraws | exact Hsame].
      * destruct (Hsuccess score eq_refl eq_refl) as (-> & Hstored & Hdrawn).
        split; [|split; [exact Hdraws|]].
        -- intros n Hn. rewrite Hstored, lookup_insert_ne.
           ++ apply Hfresh. lia.
           ++ intros Hsame. apply Hinj in Hsame. lia.
        -- cbn. split; [reflexivity|]. split; [exact Hdrawn|].
           split; [apply Hfresh; lia | exact Hstored].
    + destruct Hfailure as [(code & message & -> & _) Hsame]; [left; reflexivity|].
      split; [exact (Hkept Hsame)|]. split; [exact Hdraws | exact Hsame].
  - destruct (get_test_firestore_keeps w) as (_ & Hp & _ & Hu & _ & ->).
    rewrite Hu, Hp. split; [exact Hfresh|]. split; [lia | reflexivity].
Qed.

End Server.

(** ** The Result Interpreter *)

(** Comparison of floating-point numbers is antisymmetric, [NaN] being
    incomparable with everything. *)
Lemma SFcompare_antisym (a b : spec_float) :
  SFcompare b a = option_map CompOpp (SFcompare a b).
Proof.
  destruct a as [ [] | [] | | [] m e], b as [ [] | [] | | [] m' e'];
    simpl; try reflexivity.
  all: change (Pos.compare_cont Eq m m') with (Pos.compare m m');
       change (Pos.compare_cont Eq m' m) with (Pos.compare m' m);
       rewrite (Z.compare_antisym e e'), (Pos.compare_antisym m m');
       destruct (e ?= e')%Z, (m ?= m')%positive; reflexivity.
Qed.

Lemma leb_not_ltb (x y : float) :
  PrimFloat.leb x y = true -> PrimFloat.ltb y x = false.
Proof.
  rewrite FloatAxioms.leb_spec, FloatAxioms.ltb_spec. unfold SFleb, SFltb.
  rewrite (SFcompare_antisym (Prim2SF x) (Prim2SF y)).
  destruct (SFcompare (Prim2SF x) (Prim2SF y)) as [[]|]; simpl; congruence.
Qed.

(** C2.  The result is a function of the score alone: for every score [s],
    [s > 0.5] yields "Cancer" and [s <= 0.5], so exactly 0.5, yields
    "Non-cancer"; there is no other result.  The suggestion is a function of
    the result: "Segera periksa ke dokter!" for "Cancer" and
    "Penyakit kanker tidak terdeteksi." otherwise. *)
Theorem result_interpreter (s : float) :
  (PrimFloat.ltb 0.5 s = true -> result_of (Some s) = "Cancer") /\
  (PrimFloat.leb s 0.5 = true -> result_of (Some s) = "Non-cancer") /\
  result_of (Some 0.5%float) = "Non-cancer" /\
  (result_of (Some s) = "Cancer" \/ result_of (Some s) = "Non-cancer") /\
  suggestion_of "Cancer" = "Segera periksa ke dokter!" /\
  suggestion_of "Non-cancer" = "Penyakit kanker tidak terdeteksi." /\
  (forall result, result <> "Cancer" ->
     suggestion_of result = "Penyakit kanker tidak terdeteksi.").
Proof.
  unfold result_of, gt_half. repeat split.
  - intros Hgt. now rewrite Hgt.
  - intros Hle. now rewrite (leb_not_ltb s 0.5 Hle).
  - destruct (PrimFloat.ltb 0.5 s); auto.
  - intros result Hresult. unfold suggestion_of.
    destruct (String.eqb_spec result "Cancer"); [contradiction | reflexivity].
Qed.

(** ** The server on concrete requests

    The theorems above, and what the server answers, on requests run against
    the runtime that tracks shapes: [started] is the world of a process whose
    model has not been loaded, [ready] the world once [loadModel] has run. *)

Abbreviation started := (@initial_world Shapes.Tensor Shapes.LayersModel).
Abbreviation ready := (snd (loadModel Shapes.runtime started)).

Lemma result_interpreter_witness :
  result_of (Some 0.75%float) = "Cancer" /\
  result_of (Some 0.25%float) = "Non-cancer".
Proof.
  split.
  - apply (proj1 (result_interpreter 0.75)). reflexivity.
  - apply (proj1 (proj2 (result_interpreter 0.25))). reflexivity.
Defined.

Lemma non_image_upload_answer_witness :
  startsWith (File.mimetype Shapes.text_file) "image/" = false /\
  post_predict Shapes.runtime Shapes.env (Request.mk (Some Shapes.text_file)) ready =
    (Normal (send 500 (failure "File must be an image")), ready).
Proof.
  split; [reflexivity|].
  apply (non_image_upload_answer Shapes.runtime Shapes.env Shapes.text_file ready).
  reflexivity.
Defined.

Lemma mime_rejection_keeps_its_message_witness :
  startsWith (File.mimetype Shapes.text_file) "image/" = false /\
  exists err,
    fileFilter Shapes.text_file = inl err /\
    JsError.message err = "File must be an image" /\
    String.eqb (JsError.message err) "File too large" = false /\
    error_middleware err =
      send (or_number (JsError.status err) 500)
           (failure (or_string (JsError.message err) "Internal Server Error")) /\
    error_middleware err = send 500 (failure (JsError.message err)) /\
    forall w, post_predict Shapes.runtime Shapes.env
                (Request.mk (Some Shapes.text_file)) w =
              (Normal (error_middleware err), w).
Proof.
  split; [reflexivity|].
  apply (mime_rejection_keeps_its_message Shapes.runtime Shapes.env Shapes.text_file).
  reflexivity.
Defined.

Lemma large_image_upload_answer_witness :
  startsWith (File.mimetype Shapes.large_photo) "image/" = true /\
  1000000 < Buffer.length (File.buffer Shapes.large_photo) /\
  post_predict Shapes.runtime Shapes.env (Request.mk (Some Shapes.large_photo)) ready =
    (Normal (send 413 (failure "Payload content length greater than maximum allowed: 1MB")),
     ready).
Proof.
  split; [reflexivity|]. split; [reflexivity|].
  apply (large_image_upload_answer Shapes.runtime Shapes.env Shapes.large_photo ready);
    reflexivity.
Defined.

Lemma model_unset_answer_witness :
  model started = None /\
  upload_single (Request.mk (Some Shapes.photo)) = inr (Some Shapes.photo) /\
  startsWith (File.mimetype Shapes.photo) "image/" = true /\
  Buffer.length (File.buffer Shapes.photo) < 1000000 /\
  fst (post_predict Shapes.runtime Shapes.env (Request.mk (Some Shapes.photo)) started) =
    Normal (send 500 (failure "Model is not loaded yet. Please try again later.")) /\
  tf_calls (snd (post_predict Shapes.runtime Shapes.env
                   (Request.mk (Some Shapes.photo)) started)) = tf_calls started /\
  snd (post_predict Shapes.runtime Shapes.env (Request.mk (Some Shapes.photo)) started) =
    started.
Proof.
  split; [reflexivity|]. split; [reflexivity|]. split; [reflexivity|].
  split; [reflexivity|].
  destruct (model_unset_answer Shapes.runtime Shapes.env
              (Request.mk (Some Shapes.photo)) started eq_refl)
    as (Hlet & _ & _ & Hcalls & Hsame).
  split; [exact (Hlet (Some Shapes.photo) eq_refl)|].
  split; [exact Hcalls | exact Hsame].
Defined.

Lemma missing_file_answer_witness :
  model ready = Some 0.75%float /\
  post_predict Shapes.runtime Shapes.env (Request.mk None) ready =
    (Normal (send 400 (failure "File not uploaded")), ready).
Proof.
  split; [reflexivity|].
  apply (missing_file_answer Shapes.runtime Shapes.env 0.75%float ready).
  reflexivity.
Defined.

Lemma readiness_checked_before_file_witness :
  model started = None /\
  (forall req_file,
     upload_single (Request.mk None) = inr req_file ->
     fst (post_predict Shapes.runtime Shapes.env (Request.mk None) started) =
       Normal (send 500 (failure "Model is not loaded yet. Please try again later."))) /\
  fst (post_predict Shapes.runtime Shapes.env (Request.mk None) started) =
    Normal (send 500 (failure "Model is not loaded yet. Please try again later.")) /\
  (forall r,
     fst (post_predict Shapes.runtime Shapes.env (Request.mk None) started) = Normal r ->
     Response.code r <> 400).
Proof.
  split; [reflexivity|].
  apply (readiness_checked_before_file Shapes.runtime Shapes.env
           (Request.mk None) started).
  reflexivity.
Defined.

Lemma record_persisted_iff_witness :
  inference_score Shapes.runtime (Request.mk (Some Shapes.photo)) ready =
    Some (Some 0.75%float) /\
  Env.firestore_fault Shapes.env = None /\
  fst (post_predict Shapes.runtime Shapes.env (Request.mk (Some Shapes.photo)) ready) =
    Normal (send 200 (Body.mk "success" "Prediction successful"
                        (Some (record_for Shapes.env (Some 0.75%float) ready)))) /\
  predictions (snd (post_predict Shapes.runtime Shapes.env
                      (Request.mk (Some Shapes.photo)) ready)) =
    <[Env.uuidv4 Shapes.env (uuids_drawn ready) :=
        record_for Shapes.env (Some 0.75%float) ready]> (predictions ready) /\
  uuids_drawn (snd (post_predict Shapes.runtime Shapes.env
                      (Request.mk (Some Shapes.photo)) ready)) =
    S (uuids_drawn ready).
Proof.
  split; [reflexivity|]. split; [reflexivity|].
  apply (proj1 (record_persisted_iff Shapes.runtime Shapes.env
                  (Request.mk (Some Shapes.photo)) ready));
    reflexivity.
Defined.

Lemma preprocessing_pipeline_witness :
  upload_single (Request.mk (Some Shapes.photo)) = inr (Some Shapes.photo) /\
  model ready = Some 0.75%float /\
  tf_calls (snd (post_predict Shapes.runtime Shapes.env
                   (Request.mk (Some Shapes.photo)) ready)) =
    (tf_calls ready ++
     [Tf.DecodeImage (Shapes.zeros 20000) 3;
      Tf.ResizeBilinear ([480; 640; 3], 63.75%float) (224, 224);
      Tf.ExpandDims ([224; 224; 3], 63.75%float) 0;
      Tf.Scalar 255;
      Tf.Div ([1; 224; 224; 3], 63.75%float) ([], 255%float);
      Tf.Predict 0.75%float ([1; 224; 224; 3], 0.25%float);
      Tf.Array ([1; 1], 0.75%float)])%list.
Proof.
  split; [reflexivity|]. split; [reflexivity|].
  apply (proj1 (preprocessing_pipeline Shapes.runtime Shapes.env
                  (Request.mk (Some Shapes.photo)) Shapes.photo 0.75%float ready
                  eq_refl eq_refl)
           ([480; 640; 3], 63.75%float) ([224; 224; 3], 63.75%float)
           ([1; 224; 224; 3], 63.75%float) ([1; 224; 224; 3], 0.25%float)
           ([1; 1], 0.75%float) [0.75%float] []);
    reflexivity.
Defined.

(** ** Where the specification and the server differ *)

(** C1, as stated, fails when the record store rejects the write: the
    inference on the request completes, with score 0.75, the seven calls into
    TensorFlow.js are made, and yet no record is persisted; the response is
    the 500 of the [catch] block. *)
Lemma record_not_persisted_when_write_rejected :
  inference_score Shapes.runtime (Request.mk (Some Shapes.photo)) ready =
    Some (Some 0.75%float) /\
  List.length (tf_calls (snd (post_predict Shapes.runtime Shapes.env_down
                                (Request.mk (Some Shapes.photo)) ready))) =
    S (List.length (tf_calls ready) + 6) /\
  predictions (snd (post_predict Shapes.runtime Shapes.env_down
                      (Request.mk (Some Shapes.photo)) ready)) = predictions ready /\
  predictions ready = ∅ /\
  fst (post_predict Shapes.runtime Shapes.env_down (Request.mk (Some Shapes.photo)) ready) =
    Normal (send 500 (failure "An error occurred during prediction")).
Proof. repeat split. Qed.

(** C4, as stated, fails on a text file: the response to the rejected MIME
    type carries the error's own message, which is not the message of the
    [catch] block of the handler. *)
Lemma mime_rejection_answer_is_not_generic :
  post_predict Shapes.runtime Shapes.env (Request.mk (Some Shapes.text_file)) ready =
    (Normal (send 500 (failure "File must be an image")), ready) /\
  String.eqb "File must be an image" "An error occurred during prediction" = false.
Proof. split; reflexivity. Qed.

(** C5, as stated, fails on a text file of 1,000,001 bytes: the file filter
    rejects it before any byte is counted, and the response is the 500 of the
    MIME type, not the 413. *)
Lemma large_text_file_answer :
  (1000000 <? Buffer.length (File.buffer Shapes.large_text_file)) = true /\
  post_predict Shapes.runtime Shapes.env (Request.mk (Some Shapes.large_text_file)) ready =
    (Normal (send 500 (failure "File must be an image")), ready).
Proof. split; reflexivity. Qed.

(** C6, as stated, fails on a text file sent while the model is unset: the
    upload middleware answers before the handler looks at the model. *)
Lemma model_unset_text_file_answer :
  model started = None /\
  post_predict Shapes.runtime Shapes.env (Request.mk (Some Shapes.text_file)) started =
    (Normal (send 500 (failure "File must be an image")), started) /\
  String.eqb "File must be an image"
             "Model is not loaded yet. Please try again later." = false.
Proof. repeat split. Qed.

(** C10, as stated, fails on an image of 1,000,001 bytes sent while the model
    is unset: the response is the 413 of the size limit. *)
Lemma model_unset_large_image_answer :
  model started = None /\
  post_predict Shapes.runtime Shapes.env (Request.mk (Some Shapes.large_photo)) started =
    (Normal (send 413 (failure "Payload content length greater than maximum allowed: 1MB")),
     started).
Proof. split; reflexivity. Qed.

(** ** Further properties of the Result Interpreter and of the error
    middleware *)

Lemma SFcompare_nan_r (f : spec_float) : SFcompare f S754_nan = None.
Proof. now destruct f. Qed.

Lemma SFeqb_refl_false (f : spec_float) : SFeqb f f = false -> f = S754_nan.
Proof.
  unfold SFeqb. destruct f as [ [] | [] | | [] m e]; cbn; try discriminate;
    try reflexivity.
  all: rewrite Z.compare_refl, Pos.compare_cont_refl; discriminate.
Qed.

(** X13.  A score that is [NaN] is interpreted as "Non-cancer", with the
    suggestion "Penyakit kanker tidak terdeteksi.": every comparison with
    [NaN] is false.  So is a score that is [undefined]. *)
Theorem nan_score_is_non_cancer (s : float) :
  PrimFloat.is_nan s = true ->
  result_of (Some s) = "Non-cancer" /\
  suggestion_of (result_of (Some s)) = "Penyakit kanker tidak terdeteksi." /\
  result_of None = "Non-cancer".
Proof.
  intros Hnan. unfold PrimFloat.is_nan in Hnan. apply negb_true_iff in Hnan.
  rewrite FloatAxioms.eqb_spec in Hnan. apply SFeqb_refl_false in Hnan.
  assert (Hgt : gt_half (Some s) = false).
  { unfold gt_half. rewrite FloatAxioms.ltb_spec. unfold SFltb.
    now rewrite Hnan, SFcompare_nan_r. }
  unfold result_of. rewrite Hgt. repeat split.
Qed.

(** X14.  The error handling middleware answers every error with status
    "fail", no data, a message that is not empty and a status code that is
    not 0.  The error of the size limit is answered 413 whatever [status] it
    carries; another error that carries a [status] and a message is answered
    with them. *)
Theorem error_middleware_answer (err : JsError.t) :
  Body.status (Response.body (error_middleware err)) = "fail" /\
  Body.data (Response.body (error_middleware err)) = None /\
  Body.message (Response.body (error_middleware err)) <> "" /\
  Response.code (error_middleware err) <> 0 /\
  (JsError.message err = "File too large" ->
   error_middleware err =
     send 413 (failure "Payload content length greater than maximum allowed: 1MB")) /\
  (forall code,
     JsError.message err <> "File too large" ->
     JsError.message err <> "" ->
     JsError.status err = Some code ->
     code <> 0 ->
     error_middleware err = send code (failure (JsError.message err))).
Proof.
  unfold error_middleware, or_number, or_string.
  destruct (String.eqb_spec (JsError.message err) "File too large") as [Hlarge|Hlarge].
  - repeat split; try discriminate. intros code Hne. contradiction.
  - destruct (String.eqb_spec (JsError.message err) "") as [Hempty|Hempty];
      repeat split; cbn; try discriminate; try contradiction; try assumption.
    + destruct (JsError.status err) as [n|]; [|discriminate].
      destruct (Z.eqb_spec n 0); [discriminate | assumption].
    + destruct (JsError.status err) as [n|]; [|discriminate].
      destruct (Z.eqb_spec n 0); [discriminate | assumption].
    + intros code _ _ Hstatus Hcode. rewrite Hstatus.
      destruct (Z.eqb_spec code 0); [contradiction | reflexivity].
Qed.

(** ** Runs of the server

    A run is a list of events, each with the outside world it meets:
    [serve tf events w] gives the responses, in order, and the world the run
    ends in. *)

Abbreviation serve tf events w :=
  (run_with (fun x : Env.t * Event => serve_one tf (fst x) (snd x)) events w).

Section Runs.

Context {Tensor LayersModel : Type}.
Variable tf : Tf.Runtime Tensor LayersModel.

Implicit Types (w : @World Tensor LayersModel) (events : list (Env.t * Event)).

Lemma serve_nil w : serve tf [] w = ([], w).
Proof. reflexivity. Qed.

Lemma serve_cons (x : Env.t * Event) events w :
  serve tf (x :: events) w =
    (fst (serve_one tf (fst x) (snd x) w)
       :: fst (serve tf events (snd (serve_one tf (fst x) (snd x) w))),
     snd (serve tf events (snd (serve_one tf (fst x) (snd x) w)))).
Proof.
  cbn [run_with]. destruct (serve_one tf (fst x) (snd x) w) as [r w1].
  cbn [fst snd]. now destruct (run_with _ events w1).
Qed.

(** X15.  Once the model is loaded it stays loaded, whatever is served; and
    as long as [loadModel] does not complete, the [model] variable is what it
    was: no request assigns it. *)
Theorem model_stays_loaded (events : list (Env.t * Event)) (w : World) :
  (is_Some (model w) -> is_Some (model (snd (serve tf events w)))) /\
  (Forall (fun x => snd x <> LoadModel) events ->
   model (snd (serve tf events w)) = model w).
Proof.
  revert w. induction events as [|x events IH]; intros w; [split; auto|].
  rewrite serve_cons. cbn [snd].
  destruct (serve_one_model tf (fst x) (snd x) w) as [Hsome Hsame].
  destruct (IH (snd (serve_one tf (fst x) (snd x) w))) as [IHsome IHsame].
  split; [auto|].
  intros Hno. inversion Hno as [|? ? Hx Hrest]; subst.
  rewrite (IHsame Hrest). auto.
Qed.

(** X16.  When the model cannot be fetched, nothing a run does from a world
    in which the model is unset ever yields a prediction: the model stays
    unset, no prediction is stored, every request to [POST /predict] is
    answered with a failure, and TensorFlow.js is called only by [loadModel],
    to fetch the model: the log of calls grows by one
    [loadLayersModel(BUCKET_URL)] for each [loadModel] of the run and by
    nothing for a request. *)
Theorem no_prediction_without_model (e : JsError.t) events w :
  Tf.loadLayersModel tf BUCKET_URL = Throw e ->
  model w = None ->
  model (snd (serve tf events w)) = None /\
  predictions (snd (serve tf events w)) = predictions w /\
  Forall2 (fun x response =>
             forall req, snd x = PostPredict req ->
               exists r, response = Some r /\
                         Body.status (Response.body r) = "fail")
          events (fst (serve tf events w)) /\
  tf_calls (snd (serve tf events w)) =
    (tf_calls w ++
     flat_map (fun x : Env.t * Event =>
                 match snd x with
                 | LoadModel => [Tf.LoadLayersModel BUCKET_URL]
                 | _ => []
                 end)
              events)%list.
Proof.
  intros Hload. revert w. induction events as [|x events IH]; intros w Hmodel.
  - rewrite serve_nil. cbn [fst snd flat_map]. rewrite app_nil_r.
    repeat split; [assumption | constructor].
  - rewrite serve_cons. cbn [fst snd].
    destruct (serve_one_model_unset tf (fst x) e (snd x) w Hload Hmodel)
      as (Hmodel1 & Hstored1 & Hfail1 & Hcalls1).
    destruct (IH _ Hmodel1) as (IHmodel & IHstored & IHfail & IHcalls).
    split; [exact IHmodel|]. split; [congruence|].
    split; [constructor; assumption|].
    rewrite IHcalls, Hcalls1, <- app_assoc. reflexivity.
Qed.

(** X17.  No run touches a document of the [test] collection other than
    [testDoc]: from the start of the process the collection never holds more
    than that one document. *)
Theorem test_collection_holds_testDoc_only events :
  (forall w (id : string),
     id <> "testDoc" ->
     test (snd (serve tf events w)) !! id = test w !! id) /\
  (size (test (snd (serve tf events initial_world))) <= 1)%nat.
Proof.
  assert (Hkeep : forall w (id : string), id <> "testDoc" ->
            test (snd (serve tf events w)) !! id = test w !! id).
  { intros w id Hid. revert w. induction events as [|x events IH]; intros w;
      [reflexivity|].
    rewrite serve_cons. cbn [snd]. rewrite IH.
    now apply serve_one_test. }
  split; [exact Hkeep|].
  assert (Hnone : forall id : string, id <> "testDoc" ->
            test (snd (serve tf events initial_world)) !! id = None).
  { intros id Hid. rewrite (Hkeep _ id Hid). apply lookup_empty. }
  destruct (test (snd (serve tf events initial_world)) !! "testDoc")
    as [doc|] eqn:Hdoc.
  - replace (test (snd (serve tf events initial_world)))
      with ({["testDoc" := doc]} : gmap string TestDoc.t).
    + now rewrite map_size_singleton.
    + apply map_eq. intros id. destruct (decide (id = "testDoc")) as [->|Hid].
      * now rewrite lookup_singleton_eq.
      * rewrite lookup_singleton_ne by congruence. symmetry. now apply Hnone.
  - replace (test (snd (serve tf events initial_world)))
      with (∅ : gmap string TestDoc.t).
    + rewrite map_size_empty. lia.
    + symmetry. apply map_empty. intros id.
      destruct (decide (id = "testDoc")) as [->|Hid]; [exact Hdoc | now apply Hnone].
Qed.

Lemma reported_cons (response : option Response.t) responses :
  reported (response :: responses) =
    match r ← response; Body.data (Response.body r) with
    | Some doc => doc :: reported responses
    | None => reported responses
    end.
Proof. reflexivity. Qed.

(** A run from a world in which the identifiers yet to come are not in use:
    the predictions stored at the end are those stored at the start and those
    reported during the run, whose identifiers were drawn during the run and
    differ from one another. *)
Lemma serve_fresh (uuid : nat -> string) events :
  Inj (=) (=) uuid ->
  Forall (fun x => Env.uuidv4 (fst x) = uuid) events ->
  forall w,
    (forall n, (uuids_drawn w <= n)%nat -> predictions w !! uuid n = None) ->
    (forall n, (uuids_drawn (snd (serve tf events w)) <= n)%nat ->
       predictions (snd (serve tf events w)) !! uuid n = None) /\
    (uuids_drawn w <= uuids_drawn (snd (serve tf events w)))%nat /\
    (forall doc, doc ∈ reported (fst (serve tf events w)) ->
       exists n, (uuids_drawn w <= n < uuids_drawn (snd (serve tf events w)))%nat /\
                 Prediction.id doc = uuid n) /\
    NoDup (Prediction.id <$> reported (fst (serve tf events w))) /\
    (forall id doc,
       predictions (snd (serve tf events w)) !! id = Some doc <->
       predictions w !! id = Some doc \/
       (doc ∈ reported (fst (serve tf events w)) /\ Prediction.id doc = id)) /\
    size (predictions (snd (serve tf events w))) =
      (size (predictions w) + List.length (reported (fst (serve tf events w))))%nat.
Proof.
  intros Hinj Hevents.
  induction Hevents as [|x events Hx Hevents IH]; intros w Hfresh.
  { rewrite serve_nil. unfold reported. cbn.
    split; [exact Hfresh|]. split; [lia|].
    split; [intros doc Hdoc; now apply elem_of_nil in Hdoc|].
    split; [constructor|]. split; [|lia].
    intros id doc. split; [auto|].
    intros [Hold|[Hnew _]]; [exact Hold | now apply elem_of_nil in Hnew]. }
  rewrite serve_cons. cbn [fst snd].
  assert (Hinj_x : Inj (=) (=) (Env.uuidv4 (fst x))) by (rewrite Hx; exact Hinj).
  assert (Hfresh_x : forall n, (uuids_drawn w <= n)%nat ->
            predictions w !! Env.uuidv4 (fst x) n = None)
    by (rewrite Hx; exact Hfresh).
  destruct (serve_one_fresh tf (fst x) (snd x) w Hinj_x Hfresh_x)
    as (Hfresh1 & Hdrawn1 & Hstep).
  rewrite Hx in Hfresh1, Hstep.
  set (w1 := snd (serve_one tf (fst x) (snd x) w)) in *.
  destruct (IH w1 Hfresh1) as (IHfresh & IHdrawn & IHids & IHnodup & IHstored & IHsize).
  rewrite reported_cons.
  destruct (r ← fst (serve_one tf (fst x) (snd x) w); Body.data (Response.body r))
    as [doc|].
  - destruct Hstep as (Hid & Hdrawn & Hfree & Hstored).
    split; [exact IHfresh|]. split; [lia|].
    split; [|split; [|split]].
    + intros doc' [->|Hdoc']%elem_of_cons.
      * exists (uuids_drawn w). split; [lia | exact Hid].
      * destruct (IHids doc' Hdoc') as (n & Hn & Hdoc'n).
        exists n. split; [lia | exact Hdoc'n].
    + rewrite fmap_cons. apply NoDup_cons. split; [|exact IHnodup].
      intros (doc' & Hsame & Hdoc')%list_elem_of_fmap.
      destruct (IHids doc' Hdoc') as (n & Hn & Hdoc'n).
      rewrite Hid, Hdoc'n in Hsame. apply Hinj in Hsame. lia.
    + intros id doc'. rewrite IHstored, Hstored, lookup_insert_Some.
      split.
      * intros [[[Hk Hv]|[Hk Hv]]|[Hdoc' Hk]].
        -- right. subst. split; [apply elem_of_cons; auto | reflexivity].
        -- left. exact Hv.
        -- right. split; [apply elem_of_cons; auto | exact Hk].
      * intros [Hold|[[->|Hdoc']%elem_of_cons Hk]].
        -- left. right. split; [|exact Hold]. intros Hk. subst.
           rewrite Hfree in Hold. discriminate.
        -- left. left. auto.
        -- right. auto.
    + rewrite IHsize, Hstored, (map_size_insert_None _ _ _ Hfree).
      cbn [List.length]. lia.
  - rewrite Hstep in *.
    split; [exact IHfresh|]. split; [lia|].
    split; [|split; [exact IHnodup | split; [exact IHstored | exact IHsize]]].
    intros doc' Hdoc'. destruct (IHids doc' Hdoc') as (n & Hn & Hdoc'n).
    exists n. split; [lia | exact Hdoc'n].
Qed.

(** X18.  When [uuidv4()] never returns the same identifier twice, nor one
    that is in use in the store the process meets, then after any run, from
    any state of the process and of the store, the [predictions] collection
    holds exactly the records it held before the run and the records reported
    in the 200 responses of the run, each under its [id]: no record is lost,
    replaced or stored without having been reported, and the identifiers
    reported differ from one another.  From an empty store, the collection
    holds exactly the reported records. *)
Theorem stored_predictions_are_the_reported_ones (uuid : nat -> string)
    (events : list (Env.t * Event)) (w : World) :
  Inj (=) (=) uuid ->
  Forall (fun x => Env.uuidv4 (fst x) = uuid) events ->
  (forall n, (uuids_drawn w <= n)%nat -> predictions w !! uuid n = None) ->
  NoDup (Prediction.id <$> reported (fst (serve tf events w))) /\
  (forall id doc,
     predictions (snd (serve tf events w)) !! id = Some doc <->
     predictions w !! id = Some doc \/
     (doc ∈ reported (fst (serve tf events w)) /\ Prediction.id doc = id)) /\
  size (predictions (snd (serve tf events w))) =
    (size (predictions w) + List.length (reported (fst (serve tf events w))))%nat /\
  (predictions w = ∅ ->
   forall id doc,
     predictions (snd (serve tf events w)) !! id = Some doc <->
     doc ∈ reported (fst (serve tf events w)) /\ Prediction.id doc = id).
Proof.
  intros Hinj Hevents Hfresh.
  destruct (serve_fresh uuid events Hinj Hevents w Hfresh)
    as (_ & _ & _ & Hnodup & Hstored & Hsize).
  split; [exact Hnodup|]. split; [exact Hstored|]. split; [exact Hsize|].
  intros Hempty id doc. rewrite Hstored, Hempty, lookup_empty.
  split; [intros [Hold|Hnew]; [discriminate | exact Hnew] | auto].
Qed.

End Runs.

(** ** Further properties on concrete requests *)

Lemma ok_response_is_stored_witness :
  fst (post_predict Shapes.runtime Shapes.env (Request.mk (Some Shapes.photo)) ready) =
    Normal (send 200 (Body.mk "success" "Prediction successful"
                        (Some (record_for Shapes.env (Some 0.75%float) ready)))) /\
  exists doc,
    Body.mk "success" "Prediction successful"
            (Some (record_for Shapes.env (Some 0.75%float) ready)) =
      Body.mk "success" "Prediction successful" (Some doc) /\
    predictions (snd (post_predict Shapes.runtime Shapes.env
                        (Request.mk (Some Shapes.photo)) ready))
      !! Prediction.id doc = Some doc /\
    Prediction.id doc = Env.uuidv4 Shapes.env (uuids_drawn ready) /\
    Prediction.createdAt doc = Env.toISOString Shapes.env /\
    ((Prediction.result doc = "Cancer" /\
      Prediction.suggestion doc = "Segera periksa ke dokter!") \/
     (Prediction.result doc = "Non-cancer" /\
      Prediction.suggestion doc = "Penyakit kanker tidak terdeteksi.")).
Proof.
  split; [reflexivity|].
  apply (ok_response_is_stored Shapes.runtime Shapes.env
           (Request.mk (Some Shapes.photo)) ready
           (send 200 (Body.mk "success" "Prediction successful"
                        (Some (record_for Shapes.env (Some 0.75%float) ready)))));
    reflexivity.
Defined.

(** An image without bytes, which [decodeImage] refuses: the error it throws
    is the one printed. *)
Lemma prediction_errors_are_logged_witness :
  fst (post_predict Shapes.runtime Shapes.env
         (Request.mk (Some (File.mk "image/png" (Shapes.zeros 0)))) ready) =
    Normal (send 500 (failure "An error occurred during prediction")) /\
  console (snd (post_predict Shapes.runtime Shapes.env
                  (Request.mk (Some (File.mk "image/png" (Shapes.zeros 0)))) ready)) =
    (console ready ++
     [("Error during prediction:",
       Some (Error "Expected image (BMP, JPEG, PNG, or GIF), but got unsupported image type"))])%list.
Proof.
  exact (prediction_errors_are_logged Shapes.runtime Shapes.env
           (Request.mk (Some (File.mk "image/png" (Shapes.zeros 0)))) ready).
Defined.

Lemma empty_output_answer_witness :
  Tf.array Odd.empty_output ([1; 1], 0.75%float) = Normal [] /\
  fst (post_predict Odd.empty_output Shapes.env (Request.mk (Some Shapes.photo))
         (with_model 0.75%float started)) =
    Normal (send 500 (failure "An error occurred during prediction")) /\
  console (snd (post_predict Odd.empty_output Shapes.env
                  (Request.mk (Some Shapes.photo)) (with_model 0.75%float started))) =
    (console (with_model 0.75%float started) ++
     [("Error during prediction:",
       Some (TypeError "Cannot read properties of undefined (reading '0')"))])%list /\
  uuids_drawn (snd (post_predict Odd.empty_output Shapes.env
                      (Request.mk (Some Shapes.photo)) (with_model 0.75%float started))) =
    uuids_drawn (with_model 0.75%float started) /\
  predictions (snd (post_predict Odd.empty_output Shapes.env
                      (Request.mk (Some Shapes.photo)) (with_model 0.75%float started))) =
    predictions (with_model 0.75%float started).
Proof.
  split; [reflexivity|].
  apply (empty_output_answer Odd.empty_output Shapes.env
           (Request.mk (Some Shapes.photo)) Shapes.photo 0.75%float
           (with_model 0.75%float started)
           ([480; 640; 3], 63.75%float) ([224; 224; 3], 63.75%float)
           ([1; 224; 224; 3], 63.75%float) ([1; 224; 224; 3], 0.25%float)
           ([1; 1], 0.75%float));
    reflexivity.
Defined.

Lemma empty_row_answer_witness :
  inference_score Odd.empty_row (Request.mk (Some Shapes.photo))
    (with_model 0.75%float started) = Some None /\
  (result_of None = "Non-cancer" /\
   fst (post_predict Odd.empty_row Shapes.env (Request.mk (Some Shapes.photo))
          (with_model 0.75%float started)) =
     Normal (send 200 (Body.mk "success" "Prediction successful"
                         (Some (Prediction.mk
                                  (Env.uuidv4 Shapes.env
                                     (uuids_drawn (with_model 0.75%float started)))
                                  "Non-cancer"
                                  "Penyakit kanker tidak terdeteksi."
                                  (Env.toISOString Shapes.env))))) /\
   predictions (snd (post_predict Odd.empty_row Shapes.env
                       (Request.mk (Some Shapes.photo)) (with_model 0.75%float started)))
     !! Env.uuidv4 Shapes.env (uuids_drawn (with_model 0.75%float started)) =
     Some (Prediction.mk
             (Env.uuidv4 Shapes.env (uuids_drawn (with_model 0.75%float started)))
             "Non-cancer" "Penyakit kanker tidak terdeteksi."
             (Env.toISOString Shapes.env))) /\
  (result_of None = "Non-cancer" /\
   fst (post_predict Odd.empty_row Shapes.env_down (Request.mk (Some Shapes.photo))
          (with_model 0.75%float started)) =
     Normal (send 500 (failure "An error occurred during prediction")) /\
   predictions (snd (post_predict Odd.empty_row Shapes.env_down
                       (Request.mk (Some Shapes.photo)) (with_model 0.75%float started))) =
     predictions (with_model 0.75%float started)).
Proof.
  split; [reflexivity|]. split.
  - exact (empty_row_answer Odd.empty_row Shapes.env
             (Request.mk (Some Shapes.photo)) (with_model 0.75%float started)
             eq_refl).
  - exact (empty_row_answer Odd.empty_row Shapes.env_down
             (Request.mk (Some Shapes.photo)) (with_model 0.75%float started)
             eq_refl).
Defined.

Lemma nan_score_is_non_cancer_witness :
  PrimFloat.is_nan PrimFloat.nan = true /\
  result_of (Some PrimFloat.nan) = "Non-cancer" /\
  suggestion_of (result_of (Some PrimFloat.nan)) =
    "Penyakit kanker tidak terdeteksi." /\
  result_of None = "Non-cancer".
Proof.
  split; [reflexivity|].
  apply (nan_score_is_non_cancer PrimFloat.nan). reflexivity.
Defined.

(** A run: the model cannot be fetched; an image, a text file and no file are
    sent, and the diagnostic route is called. *)
Lemma no_prediction_without_model_witness :
  Tf.loadLayersModel Odd.no_model BUCKET_URL =
    Throw (Error "Request to the model URL failed") /\
  model started = None /\
  model (snd (serve Odd.no_model
                [(Shapes.env, LoadModel);
                 (Shapes.env, PostPredict (Request.mk (Some Shapes.photo)));
                 (Shapes.env, PostPredict (Request.mk (Some Shapes.text_file)));
                 (Shapes.env, GetTestFirestore);
                 (Shapes.env, PostPredict (Request.mk None))]
                started)) = None /\
  predictions (snd (serve Odd.no_model
                [(Shapes.env, LoadModel);
                 (Shapes.env, PostPredict (Request.mk (Some Shapes.photo)));
                 (Shapes.env, PostPredict (Request.mk (Some Shapes.text_file)));
                 (Shapes.env, GetTestFirestore);
                 (Shapes.env, PostPredict (Request.mk None))]
                started)) = predictions started /\
  tf_calls (snd (serve Odd.no_model
                [(Shapes.env, LoadModel);
                 (Shapes.env, PostPredict (Request.mk (Some Shapes.photo)));
                 (Shapes.env, PostPredict (Request.mk (Some Shapes.text_file)));
                 (Shapes.env, GetTestFirestore);
                 (Shapes.env, PostPredict (Request.mk None))]
                started)) =
    (tf_calls started ++ [Tf.LoadLayersModel BUCKET_URL])%list.
Proof.
  split; [reflexivity|]. split; [reflexivity|].
  destruct (no_prediction_without_model Odd.no_model
              (Error "Request to the model URL failed")
              [(Shapes.env, LoadModel);
               (Shapes.env, PostPredict (Request.mk (Some Shapes.photo)));
               (Shapes.env, PostPredict (Request.mk (Some Shapes.text_file)));
               (Shapes.env, GetTestFirestore);
               (Shapes.env, PostPredict (Request.mk None))]
              started eq_refl eq_refl) as (Hmodel & Hstored & _ & Hcalls).
  split; [exact Hmodel|]. split; [exact Hstored | exact Hcalls].
Defined.

Lemma uuid_of_inj : Inj (=) (=) Shapes.uuid_of.
Proof.
  intros n1 n2 Hsame. unfold Shapes.uuid_of in Hsame.
  apply (inj (String.append _)) in Hsame. apply (inj pretty) in Hsame.
  now apply Nat2N.inj.
Defined.

(** A run of a process started against a store that holds a record already:
    the model is loaded; an image is sent while Firestore accepts writes, then
    while it rejects them, then again while it accepts them. *)
Lemma stored_predictions_are_the_reported_ones_witness :
  Forall (fun x => Env.uuidv4 (fst x) = Shapes.uuid_of)
    [(Shapes.env, LoadModel);
     (Shapes.env, PostPredict (Request.mk (Some Shapes.photo)));
     (Shapes.env_down, PostPredict (Request.mk (Some Shapes.photo)));
     (Shapes.env, GetTestFirestore);
     (Shapes.env, PostPredict (Request.mk (Some Shapes.photo)))] /\
  (forall n,
     (uuids_drawn
        (with_prediction "c0ffee"
           (Prediction.mk "c0ffee" "Cancer" "Segera periksa ke dokter!"
                          "2024-11-30T00:00:00.000Z") started) <= n)%nat ->
     predictions
       (with_prediction "c0ffee"
          (Prediction.mk "c0ffee" "Cancer" "Segera periksa ke dokter!"
                         "2024-11-30T00:00:00.000Z") started)
       !! Shapes.uuid_of n = None) /\
  size (predictions
          (snd (serve Shapes.runtime
                  [(Shapes.env, LoadModel);
                   (Shapes.env, PostPredict (Request.mk (Some Shapes.photo)));
                   (Shapes.env_down, PostPredict (Request.mk (Some Shapes.photo)));
                   (Shapes.env, GetTestFirestore);
                   (Shapes.env, PostPredict (Request.mk (Some Shapes.photo)))]
                  (with_prediction "c0ffee"
                     (Prediction.mk "c0ffee" "Cancer" "Segera periksa ke dokter!"
                                    "2024-11-30T00:00:00.000Z") started)))) =
    (size (predictions
             (with_prediction "c0ffee"
                (Prediction.mk "c0ffee" "Cancer" "Segera periksa ke dokter!"
                               "2024-11-30T00:00:00.000Z") started)) +
     List.length
       (reported
          (fst (serve Shapes.runtime
                  [(Shapes.env, LoadModel);
                   (Shapes.env, PostPredict (Request.mk (Some Shapes.photo)));
                   (Shapes.env_down, PostPredict (Request.mk (Some Shapes.photo)));
                   (Shapes.env, GetTestFirestore);
                   (Shapes.env, PostPredict (Request.mk (Some Shapes.photo)))]
                  (with_prediction "c0ffee"
                     (Prediction.mk "c0ffee" "Cancer" "Segera periksa ke dokter!"
                                    "2024-11-30T00:00:00.000Z") started)))))%nat.
Proof.
  assert (Hids : Forall (fun x : Env.t * Event => Env.uuidv4 (fst x) = Shapes.uuid_of)
            [(Shapes.env, LoadModel);
             (Shapes.env, PostPredict (Request.mk (Some Shapes.photo)));
             (Shapes.env_down, PostPredict (Request.mk (Some Shapes.photo)));
             (Shapes.env, GetTestFirestore);
             (Shapes.env, PostPredict (Request.mk (Some Shapes.photo)))]).
  { repeat constructor. }
  assert (Hfresh : forall n,
            (uuids_drawn
               (with_prediction "c0ffee"
                  (Prediction.mk "c0ffee" "Cancer" "Segera periksa ke dokter!"
                                 "2024-11-30T00:00:00.000Z") started) <= n)%nat ->
            predictions
              (with_prediction "c0ffee"
                 (Prediction.mk "c0ffee" "Cancer" "Segera periksa ke dokter!"
                                "2024-11-30T00:00:00.000Z") started)
              !! Shapes.uuid_of n = None).
  { intros n _. cbn [predictions with_prediction initial_world].
    rewrite lookup_insert_ne; [apply lookup_empty|].
    unfold Shapes.uuid_of. cbn. discriminate. }
  split; [exact Hids|]. split; [exact Hfresh|].
  exact (proj1 (proj2 (proj2 (stored_predictions_are_the_reported_ones
                                Shapes.runtime Shapes.uuid_of _ _
                                uuid_of_inj Hids Hfresh)))).
Defined.
